(** * extract_codenet_split.py: a shallow embedding and its properties

    The development follows the script top to bottom:

    - [PyStr]: the string operations of Python the script relies on
      ([str.strip], [str.upper], [str.lower], [in] on strings and the
      regular expression [ID_PAT]);
    - [Json]: the values [json.load] hands to [load_id_list];
    - [Script]: the script's functions [load_id_list],
      [build_submission_index], [resolve_source_path],
      [map_status_to_label], [extract_split] and [main], over an explicit
      description of the files they read and of the files they write.

    - [Views]: the words of the statements; [Demo]: a small corpus on
      which the functions are run.

    Modelling conventions.  A Python [str] is a [string] of 8-bit
    characters and stands for an ASCII string: case conversion acts on the
    letters a-z and A-Z, white space is what [str.isspace] accepts below
    code 128, a digit is one of 0-9, and the codes from 128 on are opaque
    characters (no case, no space, no digit).  Python's Unicode case and
    digit tables outside ASCII are not part of the model.

    The parsers of the standard library ([json.load], [csv.DictReader])
    are taken by their results, the decoders by a function of the bytes.
    What the script prints, the [mkdir] calls at import time and the
    checks under [__main__] are left out. *)

From Stdlib Require Import ZArith Ascii String List Bool Lia.
From stdpp Require Import base option list gmap strings pretty.

Set Default Proof Using "Type".
Set Warnings "-register-all".
Local Open Scope string_scope.

(** ** Python strings *)

Module PyStr.

Definition code (c : ascii) : nat := nat_of_ascii c.

(** [str.isspace] on one ASCII character: TAB, LF, VT, FF, CR, the four
    separators FS, GS, RS, US, and the blank. *)
Definition is_space (c : ascii) : bool :=
  let n := code c in
  (((9 <=? n) && (n <=? 13)) || ((28 <=? n) && (n <=? 32)))%nat.

(** What [\d] matches. *)
Definition is_digit (c : ascii) : bool :=
  let n := code c in ((48 <=? n) && (n <=? 57))%nat.

Definition upper_char (c : ascii) : ascii :=
  let n := code c in
  if ((97 <=? n) && (n <=? 122))%nat then ascii_of_nat (n - 32) else c.

Definition lower_char (c : ascii) : ascii :=
  let n := code c in
  if ((65 <=? n) && (n <=? 90))%nat then ascii_of_nat (n + 32) else c.

Fixpoint map_chars (f : ascii -> ascii) (s : string) : string :=
  match s with
  | EmptyString => EmptyString
  | String c r => String (f c) (map_chars f r)
  end.

(** [s.upper()] and [s.lower()]. *)
Definition upper : string -> string := map_chars upper_char.
Definition lower : string -> string := map_chars lower_char.

Fixpoint all_chars (p : ascii -> bool) (s : string) : bool :=
  match s with
  | EmptyString => true
  | String c r => p c && all_chars p r
  end.

Fixpoint lstrip (s : string) : string :=
  match s with
  | EmptyString => EmptyString
  | String c r => if is_space c then lstrip r else s
  end.

Fixpoint rstrip (s : string) : string :=
  match s with
  | EmptyString => EmptyString
  | String c r =>
      match rstrip r with
      | EmptyString => if is_space c then EmptyString else String c EmptyString
      | r' => String c r'
      end
  end.

(** [s.strip()]: leading and trailing white space removed. *)
Definition strip (s : string) : string := rstrip (lstrip s).

(** [sub in s]: [sub] occurs in [s] as a contiguous run. *)
Fixpoint contains (sub s : string) : bool :=
  String.prefix sub s ||
  match s with
  | EmptyString => false
  | String _ r => contains sub r
  end.

(** Python truth value of a string: [not s] is [negb (truthy s)]. *)
Definition truthy (s : string) : bool :=
  match s with EmptyString => false | _ => true end.

(** Longest prefix of characters satisfying [p], and what follows it. *)
Fixpoint span (p : ascii -> bool) (s : string) : string * string :=
  match s with
  | EmptyString => (EmptyString, EmptyString)
  | String c r =>
      if p c then let '(a, b) := span p r in (String c a, b)
      else (EmptyString, s)
  end.

Fixpoint take (n : nat) (s : string) : string :=
  match n, s with
  | S k, String c r => String c (take k r)
  | _, _ => EmptyString
  end.

Fixpoint drop (n : nat) (s : string) : string :=
  match n, s with
  | S k, String _ r => drop k r
  | _, _ => s
  end.

End PyStr.

(** ** JSON values and Python exceptions *)

Module Json.

(** What [json.load] returns.  A JSON number is modelled as an integer;
    an object is its list of members in file order (Python keeps the last
    member of a repeated name). *)
Inductive json : Type :=
  | JNull
  | JBool (b : bool)
  | JNum (z : Z)
  | JStr (s : string)
  | JArr (items : list json)
  | JObj (members : list (string * json)).

(** [item.get(name)] on a dict: the value of the last member called
    [name]; Python's [None] (here [JNull]) when there is none. *)
Fixpoint obj_find (members : list (string * json)) (name : string) : option json :=
  match members with
  | [] => None
  | (k, v) :: rest =>
      match obj_find rest name with
      | Some found => Some found
      | None => if String.eqb k name then Some v else None
      end
  end.

Definition obj_get (members : list (string * json)) (name : string) : json :=
  match obj_find members name with
  | Some v => v
  | None => JNull
  end.

(** Python truth value. *)
Definition json_truthy (v : json) : bool :=
  match v with
  | JNull => false
  | JBool b => b
  | JNum z => negb (Z.eqb z 0)
  | JStr s => PyStr.truthy s
  | JArr items => match items with [] => false | _ => true end
  | JObj members => match members with [] => false | _ => true end
  end.

(** A value used as a dict key.  Lists and dicts are unhashable, so they
    have no key and using them as one raises [TypeError]. *)
Inductive key : Type :=
  | KNone
  | KBool (b : bool)
  | KInt (z : Z)
  | KStr (s : string).

Definition to_key (v : json) : option key :=
  match v with
  | JNull => Some KNone
  | JBool b => Some (KBool b)
  | JNum z => Some (KInt z)
  | JStr s => Some (KStr s)
  | JArr _ | JObj _ => None
  end.

(** Key equality of a Python dict: [True == 1] and [False == 0]. *)
Definition key_num (k : key) : option Z :=
  match k with
  | KBool b => Some (Z.b2z b)
  | KInt z => Some z
  | _ => None
  end.

Definition key_eqb (a b : key) : bool :=
  match a, b with
  | KNone, KNone => true
  | KStr x, KStr y => String.eqb x y
  | _, _ =>
      match key_num a, key_num b with
      | Some x, Some y => Z.eqb x y
      | _, _ => false
      end
  end.

(** [f"{k}"]. *)
Definition format_key (k : key) : string :=
  match k with
  | KNone => "None"
  | KBool true => "True"
  | KBool false => "False"
  | KInt z => pretty z
  | KStr s => s
  end.

(** The operand of a path join must be a [str]. *)
Definition key_str (k : key) : option string :=
  match k with KStr s => Some s | _ => None end.

End Json.

Module Exn.
Import Json.

(** The text of an exception, with the value it names. *)
Inductive message : Type :=
  | UnrecognizedIdFormat (item : string)
  | DictIdMissingKeys (item : json)
  | UnsupportedIdEntry (item : json)
  | MissingMetadataCsv (meta_csv : string)
  | IdFileNotFound (id_file : string)
  | NoSuchFile (path : string)
  | UndecodableTable (meta_csv : string).

(** [ValueError (UndecodableTable _)] is the [UnicodeDecodeError] of a
    table that is not UTF-8, which is a [ValueError]; [CsvError] is the
    [csv.Error] of the [csv] module; [OSError] is an [OSError] other than
    [FileNotFoundError]. *)
Inductive exn : Type :=
  | ValueError (m : message)
  | FileNotFoundError (m : message)
  | TypeError
  | OSError (errno : nat)
  | CsvError.

Inductive result (A : Type) : Type :=
  | Ok (a : A)
  | Raise (e : exn).
Arguments Ok {A} a.
Arguments Raise {A} e.

End Exn.

(** ** The script *)

Module Script.
Import PyStr Json Exn.

(** *** Pure helpers *)

Definition newline : string := String (ascii_of_nat 10) "".

(** [ID_PAT = re.compile(r'^(p\d{5})_s(\d+)$')] applied with [match]: the
    two groups on success.  Without [re.MULTILINE], [$] matches at the end
    of the string and also just before a line feed that ends the string. *)
Definition ID_PAT_match (item : string) : option (string * string) :=
  if String.prefix "p" item then
    let d5 := take 5 (drop 1 item) in
    if Nat.eqb (String.length d5) 5 && all_chars is_digit d5 then
      let after_g1 := drop 6 item in
      if String.prefix "_s" after_g1 then
        let '(digits, rest) := span is_digit (drop 2 after_g1) in
        if truthy digits
           && (String.eqb rest "" || String.eqb rest newline)
        then Some ("p" +:+ d5, digits)
        else None
      else None
    else None
  else None.

(** One pass of the loop of [load_id_list]. *)
Definition load_item (item : json) : result (json * json) :=
  match item with
  | JStr tok =>
      match ID_PAT_match tok with
      | None => Raise (ValueError (UnrecognizedIdFormat tok))
      | Some (g1, g2) => Ok (JStr g1, JStr ("s" +:+ g2))
      end
  | JObj members =>
      let pid := obj_get members "problem_id" in
      let sid := obj_get members "submission_id" in
      if negb (json_truthy pid && json_truthy sid)
      then Raise (ValueError (DictIdMissingKeys item))
      else Ok (pid, sid)
  | _ => Raise (ValueError (UnsupportedIdEntry item))
  end.

(** [for item in data: ...; return ids] *)
Fixpoint load_items (data : list json) (ids : list (json * json))
  : result (list (json * json)) :=
  match data with
  | [] => Ok ids
  | item :: rest =>
      match load_item item with
      | Raise e => Raise e
      | Ok id => load_items rest (ids ++ [id])%list
      end
  end.

(** A row of [csv.DictReader]: column name to field.  A column that the
    row is too short to fill is left out of the map, which every use of a
    row in the script ([row.get(..) or ..]) cannot tell from [None]. *)
Abbreviation row := (gmap string string).

(** [a or b] on two optional strings, and [o or ""]. *)
Definition or_else (a b : option string) : option string :=
  match a with
  | Some s => if truthy s then a else b
  | None => b
  end.

Definition or_empty (o : option string) : string :=
  match o with
  | Some s => if truthy s then s else ""
  | None => ""
  end.

(** The extension guessed from the language label. *)
Definition guess_ext (language : string) : string :=
  if contains "Python" language then ".py"
  else if contains "C" language && negb (contains "C++" language) then ".c"
  else ".cpp".

Abbreviation index := (gmap string (string * string * row)).

(** One pass of the loop of [build_submission_index]. *)
Definition index_row (idx : index) (r : row) : index :=
  match or_else (r !! "submission_id") (r !! "id") with
  | Some sid =>
      if negb (truthy sid) then idx
      else
        let language := strip (or_empty (r !! "language")) in
        let filename := strip (or_empty (r !! "filename")) in
        let filename :=
          if negb (truthy filename) then sid +:+ guess_ext language
          else filename in
        <[sid := (language, filename, r)]> idx
  | None => idx
  end.

(** [map_status_to_label]: the guard on the raw argument comes first, the
    normalisation after it. *)
Definition map_status_to_label (status : string) : string :=
  if negb (truthy status) then "unknown"
  else
    let s := upper (strip status) in
    if String.eqb s "AC" then "no_error"
    else if String.eqb s "RE" then "runtime_error"
    else if String.eqb s "TLE" then "timeout"
    else if String.eqb s "MLE" then "memory_limit"
    else if String.eqb s "CE" then "compile_error"
    else if String.eqb s "WA" then "wrong_answer"
    else lower s.

(** *** Writing a record

    [json.dumps(rec, ensure_ascii=False)] for a dict of strings: the
    members in insertion order, separated by [", "], name and value by
    [": "]; in a string the quote, the backslash and the control
    characters are escaped and nothing else is. *)

Definition hex_digit (n : nat) : ascii :=
  if (n <? 10)%nat then ascii_of_nat (48 + n) else ascii_of_nat (87 + n).

Definition escape_char (c : ascii) : string :=
  let n := code c in
  if Nat.eqb n 34 then "\" +:+ String c ""
  else if Nat.eqb n 92 then "\\"
  else if Nat.eqb n 10 then "\n"
  else if Nat.eqb n 13 then "\r"
  else if Nat.eqb n 9 then "\t"
  else if Nat.eqb n 8 then "\b"
  else if Nat.eqb n 12 then "\f"
  else if (n <? 32)%nat then
    "\u00" +:+ String (hex_digit (n / 16)) (String (hex_digit (n mod 16)) "")
  else String c "".

Fixpoint escape (s : string) : string :=
  match s with
  | EmptyString => EmptyString
  | String c r => escape_char c +:+ escape r
  end.

Definition quote : string := String (ascii_of_nat 34) "".

Definition dumps_str (s : string) : string := quote +:+ escape s +:+ quote.

Fixpoint dumps_members (members : list (string * string)) : string :=
  match members with
  | [] => ""
  | [(k, v)] => dumps_str k +:+ ": " +:+ dumps_str v
  | (k, v) :: rest =>
      dumps_str k +:+ ": " +:+ dumps_str v +:+ ", " +:+ dumps_members rest
  end.

Definition json_dumps (members : list (string * string)) : string :=
  "{" +:+ dumps_members members +:+ "}".

(** *** Files

    What the script reads is a [corpus], which no run changes; what it
    writes is an [outputs].  The [.jsonl] files and the raw copies live in
    two stores, both keyed by path: a raw copy is taken never to land on a
    [.jsonl] file nor inside the corpus.  A raw copy takes over the
    permission bits of its source ([shutil.copy2]); the copies that the
    user of the script may not write again are the locked ones. *)

Inductive encoding : Type := Utf8 | Latin1.

(** A source file at a path: not there, or there with its bytes.  The
    script reads a file at most once with each encoding; [read_error enc]
    is the error ([PermissionError], an I/O error) that the read with
    [enc] runs into, if any. *)
Inductive file_status : Type :=
  | Absent
  | Present (content : string) (read_error : encoding -> option nat).

(** Reading a table that is there: the rows [csv.DictReader] yields, or
    the error the loop over the reader runs into: a byte sequence that is
    not UTF-8 ([UnicodeDecodeError]), a line the [csv] module refuses
    ([csv.Error]), or an error of the operating system. *)
Inductive table_failure : Type :=
  | NotUtf8
  | BadCsv
  | TableUnreadable (errno : nat).

Inductive table : Type :=
  | Rows (rows : list row)
  | Broken (f : table_failure).

(** A copy that fails: the error, and what it leaves at the destination:
    nothing changed ([None]), or a file that was created, emptied or
    partly written (its bytes). *)
Record copy_failure : Type := {
  copy_errno : nat;
  copy_left : option string
}.

Record corpus : Type := {
  (** [json.load] of an id file; [None] when the file does not exist *)
  id_file_data : string -> option (list json);
  (** the table at a path; [None] when the file does not exist *)
  metadata_rows : string -> option table;
  source_file : string -> file_status;
  (** whether the permission bits of a source file, once on a copy, keep
      the user of the script from writing the copy *)
  source_read_only : string -> bool;
  (** [mkdir] and [shutil.copy2] from a source to a destination that can
      be written: how they fail, if they do *)
  copy_error : string -> string -> option copy_failure
}.

Record outputs : Type := {
  jsonl : gmap string (list string);
  raw_files : gmap string string;
  raw_locked : gset string
}.

(** The counters of [extract_split], the open [.jsonl] stream (the lines
    written so far), the raw tree and its locked copies. *)
Record loop_state : Type := {
  count_written : nat;
  missing_meta : nat;
  missing_file : nat;
  out : list string;
  raw : gmap string string;
  locked : gset string
}.

Definition add_missing_meta (n : nat) (s : loop_state) : loop_state :=
  {| count_written := count_written s;
     missing_meta := missing_meta s + n;
     missing_file := missing_file s;
     out := out s; raw := raw s; locked := locked s |}.

Definition add_missing_file (s : loop_state) : loop_state :=
  {| count_written := count_written s;
     missing_meta := missing_meta s;
     missing_file := missing_file s + 1;
     out := out s; raw := raw s; locked := locked s |}.

Definition write_line (line : string) (s : loop_state) : loop_state :=
  {| count_written := count_written s + 1;
     missing_meta := missing_meta s;
     missing_file := missing_file s;
     out := (out s ++ [line])%list; raw := raw s; locked := locked s |}.

(** A copy that went through: the bytes of the source, and its
    permission bits. *)
Definition copy_raw (dest content : string) (read_only : bool)
    (s : loop_state) : loop_state :=
  {| count_written := count_written s;
     missing_meta := missing_meta s;
     missing_file := missing_file s;
     out := out s; raw := <[dest := content]> (raw s);
     locked := if read_only then {[dest]} ∪ locked s
               else locked s ∖ {[dest]} |}.

(** What a copy that failed leaves at its destination. *)
Definition leave_partial (dest : string) (left : option string)
    (s : loop_state) : loop_state :=
  match left with
  | None => s
  | Some bytes =>
      {| count_written := count_written s;
         missing_meta := missing_meta s;
         missing_file := missing_file s;
         out := out s; raw := <[dest := bytes]> (raw s);
         locked := locked s |}
  end.

(** How a loop ends: normally, or with an exception on the way out; what
    was written until then stays written. *)
Inductive outcome : Type :=
  | Done (s : loop_state)
  | Raised (e : exn) (s : loop_state).

Definition state_of (o : outcome) : loop_state :=
  match o with
  | Done s => s
  | Raised _ s => s
  end.

(** The three numbers [extract_split] reports. *)
Record counters : Type := {
  written : nat;
  no_meta : nat;
  no_file : nat
}.

(** [by_problem.setdefault(pid, []).append(sid)] on an insertion-ordered
    dict. *)
Fixpoint setdefault_append (by_problem : list (key * list json))
    (pid : key) (sid : json) : list (key * list json) :=
  match by_problem with
  | [] => [(pid, [sid])]
  | (k, sids) :: rest =>
      if key_eqb k pid then (k, (sids ++ [sid])%list) :: rest
      else (k, sids) :: setdefault_append rest pid sid
  end.

(** [for pid, sid in ids: ...]; hashing an unhashable [pid] raises. *)
Fixpoint group_by_problem (ids : list (json * json))
    (by_problem : list (key * list json)) : result (list (key * list json)) :=
  match ids with
  | [] => Ok by_problem
  | (pid, sid) :: rest =>
      match to_key pid with
      | None => Raise TypeError
      | Some k => group_by_problem rest (setdefault_append by_problem k sid)
      end
  end.

(** The configuration constants. *)
Definition SPLIT_DIR : string := "data/2021-12-29-f=0.01".
Definition OUT_DIR : string := "data/codenet_extract".
Definition COPY_RAW : bool := true.

(** *** The functions that touch files *)

Section Run.

(** [CODENET_ROOT] comes from the environment. *)
Variable CODENET_ROOT : string.

(** The [/] of [pathlib], whatever it does to its operands. *)
Variable joinpath : string -> string -> string.
Local Infix "//" := joinpath (at level 40, left associativity).

(** [bytes.decode(encoding, errors="ignore")], which never raises. *)
Variable decode : encoding -> string -> string.

Variable W : corpus.

(** [load_id_list]. *)
Definition load_id_list (fpath : string) : result (list (json * json)) :=
  match id_file_data W fpath with
  | None => Raise (FileNotFoundError (NoSuchFile fpath))
  | Some data => load_items data []
  end.

(** [build_submission_index]; its argument is formatted into the file
    name. *)
Definition build_submission_index (problem_id : key) : result index :=
  let meta_csv :=
    CODENET_ROOT // "Project_CodeNet" // "metadata"
      // (format_key problem_id +:+ ".csv") in
  match metadata_rows W meta_csv with
  | None => Raise (FileNotFoundError (MissingMetadataCsv meta_csv))
  | Some (Broken NotUtf8) => Raise (ValueError (UndecodableTable meta_csv))
  | Some (Broken BadCsv) => Raise CsvError
  | Some (Broken (TableUnreadable errno)) => Raise (OSError errno)
  | Some (Rows rows) => Ok (fold_left index_row rows ∅)
  end.

(** [resolve_source_path]; joining a path with anything but a [str]
    raises [TypeError]. *)
Definition resolve_source_path (problem_id : key) (submission_id : json)
    (language filename : string) : result string :=
  match key_str problem_id with
  | None => Raise TypeError
  | Some pid =>
      Ok (CODENET_ROOT // "Project_CodeNet" // "data" // pid // language
            // filename)
  end.

(** [path.read_text(encoding=enc, errors="ignore")]. *)
Definition read_text (path : string) (enc : encoding) : result string :=
  match source_file W path with
  | Absent => Raise (FileNotFoundError (NoSuchFile path))
  | Present content read_error =>
      match read_error enc with
      | Some errno => Raise (OSError errno)
      | None => Ok (decode enc content)
      end
  end.

(** The [try]/[except Exception] around the two reads. *)
Definition read_code (src_path : string) : result string :=
  match read_text src_path Utf8 with
  | Ok code => Ok code
  | Raise _ => read_text src_path Latin1
  end.

(** [src_path.exists()]. *)
Definition exists_file (path : string) : bool :=
  match source_file W path with
  | Absent => false
  | Present _ _ => true
  end.

(** [shutil.copy2(src, dest)], after [dest_dir.mkdir].  A destination
    that is there and locked cannot be opened for writing
    ([PermissionError], errno 13) and stays as it is; any other failure
    may leave a partial file; a copy that goes through leaves the bytes
    and the permission bits of the source. *)
Definition copy2 (src dest : string) (s : loop_state) : outcome :=
  if bool_decide (dest ∈ locked s) then Raised (OSError 13) s
  else
    match copy_error W src dest with
    | Some failure =>
        Raised (OSError (copy_errno failure))
          (leave_partial dest (copy_left failure) s)
    | None =>
        match source_file W src with
        | Present content _ =>
            Done (copy_raw dest content (source_read_only W src) s)
        | Absent => Raised (FileNotFoundError (NoSuchFile src)) s
        end
    end.

(** The body of [for sid in sids].  Where the record is built, [pid] has
    passed the path join and [sid] was found among the keys of the index:
    both are strings, and [format_key] gives them back unchanged. *)
Definition process_sid (raw_root : string) (pid : key) (idx : index)
    (s : loop_state) (sid : json) : outcome :=
  match to_key sid with
  | None => Raised TypeError s
  | Some k =>
      match (match key_str k with Some x => idx !! x | None => None end) with
      | None => Done (add_missing_meta 1 s)
      | Some (language, filename, meta) =>
          match resolve_source_path pid sid language filename with
          | Raise e => Raised e s
          | Ok src_path =>
              if negb (exists_file src_path) then Done (add_missing_file s)
              else
                match read_code src_path with
                | Raise e => Raised e s
                | Ok code =>
                    let status :=
                      or_empty (or_else (meta !! "status") (meta !! "result")) in
                    let label := map_status_to_label status in
                    let rec :=
                      [("problem_id", format_key pid);
                       ("submission_id", format_key k);
                       ("language", language);
                       ("filename", filename);
                       ("status", status);
                       ("label", label);
                       ("code", code)] in
                    let s := write_line (json_dumps rec +:+ newline) s in
                    if COPY_RAW then
                      let dest_dir := raw_root // format_key pid // language in
                      copy2 src_path (dest_dir // filename) s
                    else Done s
                end
          end
      end
  end.

Fixpoint process_sids (raw_root : string) (pid : key) (idx : index)
    (s : loop_state) (sids : list json) : outcome :=
  match sids with
  | [] => Done s
  | sid :: rest =>
      match process_sid raw_root pid idx s sid with
      | Done s' => process_sids raw_root pid idx s' rest
      | Raised e s' => Raised e s'
      end
  end.

(** The body of [for pid, sids in by_problem.items()]. *)
Definition process_group (raw_root : string) (s : loop_state)
    (group : key * list json) : outcome :=
  let '(pid, sids) := group in
  match build_submission_index pid with
  | Raise (FileNotFoundError _) => Done (add_missing_meta (length sids) s)
  | Raise e => Raised e s
  | Ok idx => process_sids raw_root pid idx s sids
  end.

Fixpoint process_groups (raw_root : string) (s : loop_state)
    (by_problem : list (key * list json)) : outcome :=
  match by_problem with
  | [] => Done s
  | group :: rest =>
      match process_group raw_root s group with
      | Done s' => process_groups raw_root s' rest
      | Raised e s' => Raised e s'
      end
  end.

(** [extract_split]: the files after the call, and the counters it
    reports or the exception it leaves with. *)
Definition extract_split (split_name id_file : string) (fs : outputs)
  : outputs * result counters :=
  match id_file_data W id_file with
  | None => (fs, Raise (FileNotFoundError (IdFileNotFound id_file)))
  | Some _ =>
      match load_id_list id_file with
      | Raise e => (fs, Raise e)
      | Ok ids =>
          let out_jsonl := OUT_DIR // (split_name +:+ ".jsonl") in
          let raw_root := OUT_DIR // "raw" // split_name in
          match group_by_problem ids [] with
          | Raise e => (fs, Raise e)
          | Ok by_problem =>
              let start :=
                {| count_written := 0; missing_meta := 0; missing_file := 0;
                   out := []; raw := raw_files fs;
                   locked := raw_locked fs |} in
              let o := process_groups raw_root start by_problem in
              let s := state_of o in
              let fs' :=
                {| jsonl := <[out_jsonl := out s]> (jsonl fs);
                   raw_files := raw s; raw_locked := locked s |} in
              match o with
              | Done _ =>
                  (fs', Ok {| written := count_written s;
                              no_meta := missing_meta s;
                              no_file := missing_file s |})
              | Raised e _ => (fs', Raise e)
              end
          end
      end
  end.

(** [main]: the three splits in turn; an exception ends the run. *)
Definition main (fs : outputs) : outputs * result unit :=
  match extract_split "train" (SPLIT_DIR // "train-ids.json") fs with
  | (fs, Raise e) => (fs, Raise e)
  | (fs, Ok _) =>
      match extract_split "valid" (SPLIT_DIR // "valid-ids.json") fs with
      | (fs, Raise e) => (fs, Raise e)
      | (fs, Ok _) =>
          match extract_split "test" (SPLIT_DIR // "test-ids.json") fs with
          | (fs, Raise e) => (fs, Raise e)
          | (fs, Ok _) => (fs, Ok tt)
          end
      end
  end.

End Run.

End Script.

(** ** The vocabulary of the statements

    Nothing here is part of the script: these are the words in which the
    properties below are stated. *)

Module Views.
Import PyStr Json Exn Script.

(** The three things [index_row] reads off a row, named for the
    statements below: the key, and the two derived fields. *)
Definition row_sid (r : row) : option string :=
  match or_else (r !! "submission_id") (r !! "id") with
  | Some sid => if truthy sid then Some sid else None
  | None => None
  end.

Definition row_language (r : row) : string :=
  strip (or_empty (r !! "language")).

Definition row_filename (sid : string) (r : row) : string :=
  let given := strip (or_empty (r !! "filename")) in
  if truthy given then given else sid +:+ guess_ext (row_language r).

(** The label table as the specification words it: the closed table on
    the trimmed, upper-cased status, the lower-cased form of that
    normalised status for anything else, and "unknown" for the empty
    status. *)
Definition label_table : list (string * string) :=
  [("AC", "no_error"); ("RE", "runtime_error"); ("TLE", "timeout");
   ("MLE", "memory_limit"); ("CE", "compile_error"); ("WA", "wrong_answer")].

Fixpoint table_find (table : list (string * string)) (k : string) : option string :=
  match table with
  | [] => None
  | (k', v) :: rest => if String.eqb k k' then Some v else table_find rest k
  end.

Definition label_spec (status : string) : string :=
  if String.eqb status "" then "unknown"
  else
    match table_find label_table (upper (strip status)) with
    | Some label => label
    | None => lower (upper (strip status))
    end.

(** A composite token as the specification words it: "p", five digits,
    "_s", digits, and nothing else. *)
Definition well_formed_token (tok : string) : Prop :=
  exists d5 ds,
    String.length d5 = 5
    /\ all_chars is_digit d5 = true
    /\ truthy ds = true
    /\ all_chars is_digit ds = true
    /\ tok = "p" +:+ d5 +:+ "_s" +:+ ds.







Definition is_key (pid : string) (k : key) : bool :=
  match k with
  | KStr p => String.eqb p pid
  | _ => false
  end.


(** The line [extract_split] writes for a submission, from what the index
    holds for it and the text of its file. *)
Definition record_line (pid sid language filename : string)
    (meta : row) (code : string) : string :=
  let status := or_empty (or_else (meta !! "status") (meta !! "result")) in
  json_dumps
    [("problem_id", pid); ("submission_id", sid); ("language", language);
     ("filename", filename); ("status", status);
     ("label", map_status_to_label status); ("code", code)]
  +:+ newline.

(** [s'] has the lines of [s] and then at most [n] more, counted in
    [count_written]. *)
Definition extends (n : nat) (s s' : loop_state) : Prop :=
  exists new,
    out s' = (out s ++ new)%list
    /\ count_written s' = count_written s + length new
    /\ length new <= n.

(** The number of submissions in the groups. *)
Fixpoint group_size (by_problem : list (key * list json)) : nat :=
  match by_problem with
  | [] => 0
  | (_, sids) :: rest => length sids + group_size rest
  end.

End Views.

(** ** A small corpus

    The end-to-end scenario: one problem with a two-row table and one
    source file, used to run the functions on concrete inputs. *)

Module Demo.
Import PyStr Json Exn Script.

Definition root : string := "/codenet".

Definition join (a b : string) : string := a +:+ "/" +:+ b.

Fixpoint keep_ascii (s : string) : string :=
  match s with
  | EmptyString => EmptyString
  | String c r =>
      if (code c <? 128)%nat then String c (keep_ascii r) else keep_ascii r
  end.

Definition decode (enc : encoding) (content : string) : string :=
  match enc with
  | Utf8 => keep_ascii content
  | Latin1 => content
  end.

Definition row1 : gmap string string :=
  {[ "submission_id" := "s000000001"; "language" := "Python";
     "filename" := "a.py"; "status" := "AC" ]}.

Definition row2 : gmap string string :=
  {[ "submission_id" := "s000000002"; "language" := "C++";
     "filename" := ""; "status" := "WA" ]}.

Definition row3 : gmap string string :=
  {[ "submission_id" := "s000000005"; "language" := "C";
     "filename" := "old.c"; "status" := "RE" ]}.

Definition row4 : gmap string string :=
  {[ "id" := "s000000005"; "language" := "C";
     "filename" := "flaky.c"; "status" := "AC" ]}.

Definition world : corpus :=
  {| id_file_data := fun p =>
       if String.eqb p "data/2021-12-29-f=0.01/train-ids.json"
       then Some [JStr "p00001_s000000001"; JStr "p00009_s000000007";
                  JStr "p00001_s000000002"; JStr "p00001_s000000001"]
       else if String.eqb p "data/2021-12-29-f=0.01/valid-ids.json"
       then Some []
       else if String.eqb p "data/2021-12-29-f=0.01/test-ids.json"
       then Some [JStr "p00001_s000000001"]
       else if String.eqb p "mixed-ids.json"
       then Some [JStr "p00023_s006384060";
                  JObj [("problem_id", JStr "p00001");
                        ("submission_id", JStr "s000000001")]]
       else if String.eqb p "linefeed-ids.json"
       then Some [JStr ("p00023_s006384060" +:+ newline)]
       else if String.eqb p "broken-ids.json"
       then Some [JStr "p00001_s000000001"; JStr "p0001_s000000001"]
       else None;
     metadata_rows := fun p =>
       if String.eqb p "/codenet/Project_CodeNet/metadata/p00001.csv"
       then Some (Rows [row1; row2])
       else if String.eqb p "/codenet/Project_CodeNet/metadata/p00002.csv"
       then Some (Rows [row3; row4; row1])
       else None;
     source_file := fun p =>
       if String.eqb p "/codenet/Project_CodeNet/data/p00001/Python/a.py"
       then Present "print(1)" (fun _ => None)
       else if String.eqb p "/codenet/Project_CodeNet/data/p00001/C++/locked.cpp"
       then Present "int main(){}" (fun _ => Some 13%nat)
       else if String.eqb p "/codenet/Project_CodeNet/data/p00001/C/flaky.c"
       then Present "main(){}"
              (fun enc => match enc with Utf8 => Some 5%nat | Latin1 => None end)
       else Absent;
     source_read_only := fun _ => false;
     copy_error := fun _ _ => None |}.

Definition empty_outputs : outputs :=
  {| jsonl := ∅; raw_files := ∅; raw_locked := ∅ |}.

Definition start : loop_state :=
  {| count_written := 0; missing_meta := 0; missing_file := 0;
     out := []; raw := ∅; locked := ∅ |}.

Definition raw_root : string := "data/codenet_extract/raw/train".

Definition index1 : gmap string (string * string * gmap string string) :=
  fold_left index_row [row1; row2] ∅.

Definition run_split (split_name id_file : string) (fs : outputs)
  : outputs * result counters :=
  extract_split root join decode world split_name id_file fs.

Definition run_main (fs : outputs) : outputs * result unit :=
  main root join decode world fs.

End Demo.

(** ** The entry point

    The block under [__main__]: four paths must exist before [main] is
    called.  Which directories exist is one more fact about the machine,
    next to the corpus. *)

Module Entry.
Import PyStr Json Exn Script.

(** The message of a [SystemExit]. *)
Inductive exit_message : Type :=
  | RootMissing (root : string)
  | DataOrMetadataMissing (root : string)
  | SplitDirMissing (split_dir : string).

(** How the script ends: [SystemExit], or the way [main] ends. *)
Inductive ending : Type :=
  | SystemExit (m : exit_message)
  | Ran (r : result unit).

Section EntryPoint.

Variable CODENET_ROOT : string.
Variable joinpath : string -> string -> string.
Local Infix "//" := joinpath (at level 40, left associativity).
Variable decode : encoding -> string -> string.
Variable W : corpus.

(** [path.exists()] on the paths the checks look at. *)
Variable path_exists : string -> bool.

Definition run_script (fs : outputs) : outputs * ending :=
  if negb (path_exists CODENET_ROOT)
  then (fs, SystemExit (RootMissing CODENET_ROOT))
  else if negb (path_exists (CODENET_ROOT // "Project_CodeNet" // "data"))
          || negb (path_exists (CODENET_ROOT // "Project_CodeNet" // "metadata"))
  then (fs, SystemExit (DataOrMetadataMissing CODENET_ROOT))
  else if negb (path_exists SPLIT_DIR)
  then (fs, SystemExit (SplitDirMissing SPLIT_DIR))
  else
    let '(fs', r) := main CODENET_ROOT joinpath decode W fs in (fs', Ran r).

End EntryPoint.

End Entry.

(** ** More vocabulary *)

Module Words.
Import PyStr Json Exn Script Views.

(** No line feed in a string. *)
Definition no_lf (s : string) : bool :=
  all_chars (fun c => negb (Nat.eqb (code c) 10)) s.

(** A line of a [.jsonl] file that holds one record: text without a line
    feed, then one line feed. *)
Definition one_record_line (line : string) : Prop :=
  exists body, line = body +:+ newline /\ no_lf body = true.

(** The submissions the loops have accounted for. *)
Definition accounted (s : loop_state) : nat :=
  count_written s + missing_meta s + missing_file s.

(** The exceptions that can leave the loops of [extract_split]. *)
Definition loop_exn (e : exn) : Prop :=
  match e with
  | TypeError => True
  | OSError _ => True
  | CsvError => True
  | FileNotFoundError (NoSuchFile _) => True
  | ValueError (UndecodableTable _) => True
  | _ => False
  end.

(** The exceptions of [extract_split] and [load_id_list] themselves: the
    three [ValueError]s of a malformed entry and the [FileNotFoundError]
    of the id file. *)
Definition loader_exn (id_file : string) (e : exn) : Prop :=
  match e with
  | ValueError (UnrecognizedIdFormat _) => True
  | ValueError (DictIdMissingKeys _) => True
  | ValueError (UnsupportedIdEntry _) => True
  | FileNotFoundError (IdFileNotFound f) => f = id_file
  | _ => False
  end.

(** A string of characters below code 128. *)
Definition is_ascii (s : string) : bool :=
  all_chars (fun c => (code c <? 128)%nat) s.

(** Every file of [m] was in [m0] or holds the bytes of a source file. *)
Definition from_corpus (W : corpus) (m0 m : gmap string string) : Prop :=
  forall p c,
    m !! p = Some c ->
    m0 !! p = Some c
    \/ exists src read_error, source_file W src = Present c read_error.

(** The keys of the groups differ pairwise, as the keys of a dict do. *)
Fixpoint distinct_keys (by_problem : list (key * list json)) : Prop :=
  match by_problem with
  | [] => True
  | (k, _) :: rest =>
      Forall (fun g => key_eqb k (fst g) = false) rest /\ distinct_keys rest
  end.

(** The submissions grouped under the problem [pid], and the submissions
    the id list names for it, both in order. *)
Fixpoint group_of (pid : string) (by_problem : list (key * list json))
  : list json :=
  match by_problem with
  | [] => []
  | (k, sids) :: rest =>
      ((if is_key pid k then sids else []) ++ group_of pid rest)%list
  end.

Definition is_pid (pid : string) (v : json) : bool :=
  match v with
  | JStr p => String.eqb p pid
  | _ => false
  end.

Fixpoint sids_of (pid : string) (ids : list (json * json)) : list json :=
  match ids with
  | [] => []
  | (p, x) :: rest =>
      if is_pid pid p then x :: sids_of pid rest else sids_of pid rest
  end.

End Words.

(** ** A second small corpus

    Files that cannot be read or copied, and a table with rows that have
    no key. *)

Module Demo2.
Import PyStr Json Exn Script.

Definition keyless : gmap string string :=
  {[ "language" := "C"; "filename" := "lost.c" ]}.

Definition by_id : gmap string string :=
  {[ "submission_id" := ""; "id" := "s000000009"; "language" := "Python 3";
     "filename" := "  " ]}.

Definition index2 : gmap string (string * string * gmap string string) :=
  {[ "s000000003" := ("C++", "locked.cpp", Demo.row2);
     "s000000001" := ("Python", "a.py", Demo.row1) ]}.

Definition world : corpus :=
  {| id_file_data := fun p =>
       if String.eqb p "empty-ids.json" then Some []
       else if String.eqb p "latin-ids.json"
       then Some [JStr "p00001_s000000001"; JStr "p00002_s000000005"]
       else if String.eqb p "list-ids.json"
       then Some [JObj [("problem_id", JArr [JStr "p00001"]);
                        ("submission_id", JStr "s000000001")]]
       else if String.eqb p "data/2021-12-29-f=0.01/train-ids.json"
       then Some [JStr "p00001_s000000001"]
       else if String.eqb p "data/2021-12-29-f=0.01/valid-ids.json"
       then Some [JStr "p00001_s1"; JNum 7]
       else if String.eqb p "data/2021-12-29-f=0.01/test-ids.json"
       then Some [JStr "p00001_s000000001"]
       else None;
     metadata_rows := fun p =>
       if String.eqb p "/codenet/Project_CodeNet/metadata/p00001.csv"
       then Some (Rows [Demo.row1; keyless; by_id])
       else if String.eqb p "/codenet/Project_CodeNet/metadata/p00002.csv"
       then Some (Broken NotUtf8)
       else None;
     source_file := source_file Demo.world;
     source_read_only := fun _ => false;
     copy_error := fun src dest =>
       if String.eqb dest "data/codenet_extract/raw/full/p00001/Python/a.py"
       then Some {| copy_errno := 28; copy_left := Some "pri" |}
       else None |}.


Definition all_there (p : string) : bool := true.

Definition no_split_dir (p : string) : bool :=
  negb (String.eqb p "data/2021-12-29-f=0.01").

End Demo2.

(** * Properties *)

Import PyStr Json Exn Script Views Entry Words.

(** ** Strings *)

Section StringFacts.

Lemma truthy_eqb (s : string) : truthy s = negb (String.eqb s "").
Proof. destruct s; reflexivity. Qed.

Lemma app_cons (c : ascii) (a b : string) :
  String c a +:+ b = String c (a +:+ b).
Proof. reflexivity. Qed.

Lemma app_empty_l (s : string) : "" +:+ s = s.
Proof. reflexivity. Qed.

Lemma app_empty_r (s : string) : s +:+ "" = s.
Proof. induction s as [|c r IH]; [reflexivity|]. now rewrite app_cons, IH. Qed.

Lemma append_assoc (a b c : string) : (a +:+ b) +:+ c = a +:+ b +:+ c.
Proof.
  induction a as [|x a IH]; [reflexivity|]. now rewrite !app_cons, IH.
Qed.

Lemma prefix_drop (a s : string) :
  String.prefix a s = true -> s = a +:+ drop (String.length a) s.
Proof.
  revert s. induction a as [|c a IH]; intros s H; [reflexivity|].
  destruct s as [|d s]; cbn in H; [discriminate|].
  destruct (Ascii.ascii_dec c d) as [->|]; [|discriminate].
  rewrite app_cons. cbn [String.length drop]. f_equal. now apply IH.
Qed.

Lemma prefix_app (a post : string) : String.prefix a (a +:+ post) = true.
Proof.
  induction a as [|c a IH]; [now destruct post|].
  rewrite app_cons. cbn. now destruct (Ascii.ascii_dec c c).
Qed.

(** [contains] is the [in] of Python: [sub] lies in [s] between some
    [pre] and some [post]. *)
Lemma contains_spec (sub s : string) :
  contains sub s = true <-> exists pre post, s = pre +:+ sub +:+ post.
Proof.
  split.
  - induction s as [|c r IH]; cbn [contains].
    + rewrite orb_false_r. intros H%prefix_drop. now exists "", (drop (String.length sub) "").
    + intros [H|H]%orb_true_iff.
      * apply prefix_drop in H. now exists "", (drop (String.length sub) (String c r)).
      * destruct (IH H) as (pre & post & ->). now exists (String c pre), post.
  - intros (pre & post & ->). induction pre as [|c pre IH].
    + rewrite app_empty_l.
      destruct (sub +:+ post) eqn:E; cbn [contains]; rewrite <- E;
        now rewrite prefix_app.
    + rewrite app_cons. cbn [contains]. now rewrite IH, orb_true_r.
Qed.

(** Trimming does not change whether a string contains a run of
    characters that has no white space in it. *)
Lemma prefix_space (sub r : string) (c d : ascii) :
  is_space c = false -> is_space d = true ->
  String.prefix (String c sub) (String d r) = false.
Proof.
  intros Hc Hd. cbn. destruct (Ascii.ascii_dec c d) as [->|]; congruence.
Qed.

Lemma contains_lstrip (sub s : string) (c : ascii) :
  is_space c = false ->
  contains (String c sub) (lstrip s) = contains (String c sub) s.
Proof.
  intros Hc. induction s as [|d r IH]; [reflexivity|].
  cbn [lstrip]. destruct (is_space d) eqn:Hd; [|reflexivity].
  rewrite IH. cbn [contains]. now rewrite (prefix_space _ _ _ _ Hc Hd).
Qed.

Lemma rstrip_cons (d : ascii) (r : string) :
  (rstrip (String d r) = "" /\ rstrip r = "" /\ is_space d = true)
  \/ rstrip (String d r) = String d (rstrip r).
Proof.
  cbn [rstrip]. destruct (rstrip r) eqn:E; [|now right].
  destruct (is_space d); [now left|now right].
Qed.

Lemma prefix_rstrip (sub s : string) :
  all_chars (fun c => negb (is_space c)) sub = true ->
  String.prefix sub (rstrip s) = String.prefix sub s.
Proof.
  revert sub. induction s as [|d r IH]; intros sub Hsub; [reflexivity|].
  destruct sub as [|c t]; [now destruct (rstrip (String d r))|].
  cbn in Hsub. apply andb_true_iff in Hsub as [Hc Ht].
  apply negb_true_iff in Hc.
  destruct (rstrip_cons d r) as [(-> & E & Hd)| ->].
  - now rewrite (prefix_space _ _ _ _ Hc Hd).
  - cbn. destruct (Ascii.ascii_dec c d); [now apply IH|reflexivity].
Qed.

Lemma contains_rstrip (sub s : string) (c : ascii) :
  all_chars (fun c => negb (is_space c)) (String c sub) = true ->
  contains (String c sub) (rstrip s) = contains (String c sub) s.
Proof.
  intros Hsub. induction s as [|d r IH]; [reflexivity|].
  pose proof (prefix_rstrip _ (String d r) Hsub) as Hp.
  destruct (rstrip_cons d r) as [(E & Er & Hd)| E].
  - rewrite E in *. cbn [contains]. rewrite <- Hp, <- IH, Er. reflexivity.
  - rewrite E in *. cbn [contains]. now rewrite Hp, IH.
Qed.

Lemma contains_strip (sub s : string) (c : ascii) :
  all_chars (fun c => negb (is_space c)) (String c sub) = true ->
  contains (String c sub) (strip s) = contains (String c sub) s.
Proof.
  intros Hsub. unfold strip. rewrite (contains_rstrip _ _ _ Hsub).
  apply contains_lstrip. cbn in Hsub.
  apply andb_true_iff in Hsub as [Hc _]. now apply negb_true_iff in Hc.
Qed.

End StringFacts.

(** ** [map_status_to_label] *)

Section Labels.

(** C1, as the script has it: [map_status_to_label] is a total function
    that agrees everywhere with the table of the specification once the
    test for the empty status is made on the raw string, before
    trimming: the empty status gives "unknown", a status whose trimmed
    upper-cased form is in the table gives the table's label, any other
    status gives the lower-cased form of its trimmed upper-cased form.
    The three values the specification lists come out as listed. *)
Theorem map_status_to_label_spec :
  (forall status, map_status_to_label status = label_spec status)
  /\ map_status_to_label "ac" = "no_error"
  /\ map_status_to_label "AC" = "no_error"
  /\ map_status_to_label "" = "unknown"
  /\ map_status_to_label "XX" = "xx".
Proof.
  split; [|repeat split; reflexivity].
  intros status. unfold map_status_to_label, label_spec.
  rewrite truthy_eqb, negb_involutive.
  destruct (String.eqb status ""); [reflexivity|].
  cbn [table_find label_table].
  repeat (destruct (String.eqb _ _); [reflexivity|]).
  reflexivity.
Qed.

(** C1 as stated fails on a status made of blanks: it is empty after
    trimming, yet the label is the empty string, not "unknown". *)
Lemma map_status_to_label_blank :
  strip "  " = "" /\ map_status_to_label "  " = ""
  /\ map_status_to_label "  " <> "unknown".
Proof. split; [reflexivity|split; [reflexivity|discriminate]]. Qed.

End Labels.

(** ** [load_id_list] *)

Section Loader.

Lemma span_all (p : ascii -> bool) (s : string) :
  all_chars p s = true -> span p s = (s, "").
Proof.
  induction s as [|c r IH]; cbn; [reflexivity|].
  intros [Hc Hr]%andb_true_iff. rewrite Hc, (IH Hr). reflexivity.
Qed.

Lemma span_app (p : ascii -> bool) (s a b : string) :
  span p s = (a, b) -> s = a +:+ b /\ all_chars p a = true.
Proof.
  revert a b. induction s as [|c r IH]; cbn; intros a b H.
  - inversion H. now split.
  - destruct (p c) eqn:Hc.
    + destruct (span p r) as [a' b'] eqn:E. inversion H; subst.
      destruct (IH _ _ eq_refl) as [-> Ha]. cbn. now rewrite Hc, Ha.
    + inversion H. now split.
Qed.

Lemma length5 (s : string) :
  String.length s = 5 ->
  exists a b c d e, s = String a (String b (String c (String d (String e "")))).
Proof.
  destruct s as [|a [|b [|c [|d [|e [|f r]]]]]]; cbn; try discriminate.
  intros _. now exists a, b, c, d, e.
Qed.

Lemma take_drop (n : nat) (s : string) : s = take n s +:+ drop n s.
Proof.
  revert s. induction n as [|n IH]; intros [|c r]; try reflexivity.
  change (String c r = String c (take n r +:+ drop n r)).
  f_equal. apply IH.
Qed.

(** On a well-formed token the pattern matches and its groups are the
    problem part and the digits of the submission part. *)
Lemma ID_PAT_match_well_formed (d5 ds : string) :
  String.length d5 = 5 -> all_chars is_digit d5 = true ->
  truthy ds = true -> all_chars is_digit ds = true ->
  ID_PAT_match ("p" +:+ d5 +:+ "_s" +:+ ds) = Some ("p" +:+ d5, ds).
Proof.
  intros (a & b & c & d & e & ->)%length5 H5 Hne Hds.
  unfold ID_PAT_match. rewrite !app_cons, !app_empty_l.
  cbn [String.prefix take drop String.length Nat.eqb].
  destruct (Ascii.ascii_dec "p" "p") as [_|?]; [|congruence].
  rewrite H5. cbn [andb].
  destruct (Ascii.ascii_dec "_" "_") as [_|?]; [|congruence].
  destruct (Ascii.ascii_dec "s" "s") as [_|?]; [|congruence].
  rewrite (span_all _ _ Hds), Hne.
  destruct ds as [|x ds']; [discriminate|reflexivity].
Qed.

(** The pattern matches nothing but a well-formed token, or one followed
    by a single line feed. *)
Lemma ID_PAT_match_inv (tok g1 g2 : string) :
  ID_PAT_match tok = Some (g1, g2) ->
  well_formed_token (g1 +:+ "_s" +:+ g2)
  /\ (tok = g1 +:+ "_s" +:+ g2 \/ tok = g1 +:+ "_s" +:+ g2 +:+ newline).
Proof.
  unfold ID_PAT_match. intros H.
  destruct (String.prefix "p" tok) eqn:Hp; [|discriminate].
  apply prefix_drop in Hp. cbn [String.length] in Hp.
  destruct (Nat.eqb _ 5 && _) eqn:H5; [|discriminate].
  apply andb_true_iff in H5 as [Hlen Hd5]. apply Nat.eqb_eq in Hlen.
  destruct (String.prefix "_s" (drop 6 tok)) eqn:Hs; [|discriminate].
  apply prefix_drop in Hs. cbn [String.length] in Hs.
  destruct (span is_digit (drop 2 (drop 6 tok))) as [digits rest] eqn:Hsp.
  apply span_app in Hsp as [Hrest Hdig].
  destruct (truthy digits) eqn:Hne; [|discriminate].
  destruct (String.eqb rest "" || String.eqb rest newline) eqn:Hend;
    [|discriminate].
  cbn [andb] in H. inversion H; subst g1 g2; clear H.
  assert (E : drop 5 (drop 1 tok) = drop 6 tok) by (now destruct tok).
  assert (Htok : tok = ("p" +:+ take 5 (drop 1 tok)) +:+ "_s" +:+ digits +:+ rest).
  { rewrite Hp at 1. rewrite (take_drop 5 (drop 1 tok)) at 1.
    rewrite E. rewrite Hs at 1. rewrite Hrest at 1.
    reflexivity. }
  split.
  - exists (take 5 (drop 1 tok)), digits. repeat split; assumption.
  - apply orb_true_iff in Hend as [R|R]; apply String.eqb_eq in R; subst rest.
    + left. rewrite Htok at 1. now rewrite app_empty_r.
    + right. exact Htok.
Qed.

(** What a successful [load_items] returns: the pairs it was given, then
    one pair per entry, in order. *)
Lemma load_items_ok (data : list json) (acc ids : list (json * json)) :
  load_items data acc = Ok ids ->
  exists new,
    ids = (acc ++ new)%list
    /\ Forall2 (fun item id => load_item item = Ok id) data new.
Proof.
  revert acc. induction data as [|item rest IH]; intros acc H; cbn in H.
  - inversion H; subst. exists []. split; [now rewrite app_nil_r|constructor].
  - destruct (load_item item) as [id|e] eqn:E; [|discriminate].
    destruct (IH _ H) as (new & -> & Hall).
    exists (id :: new). split; [now rewrite <- app_assoc|now constructor].
Qed.

(** Entries that all load give a successful [load_items]. *)
Lemma load_items_all (data : list json) (acc new : list (json * json)) :
  Forall2 (fun item id => load_item item = Ok id) data new ->
  load_items data acc = Ok (acc ++ new)%list.
Proof.
  intros H. revert acc. induction H as [|item id rest new' E _ IH]; intros acc.
  - cbn. now rewrite app_nil_r.
  - cbn. rewrite E, IH. now rewrite <- app_assoc.
Qed.

(** The first entry that fails to load ends [load_items] with its error. *)
Lemma load_items_fail_fast (pre post : list json) (item : json) (e : exn)
    (acc : list (json * json)) :
  Forall (fun x => exists id, load_item x = Ok id) pre ->
  load_item item = Raise e ->
  load_items (pre ++ item :: post) acc = Raise e.
Proof.
  intros Hpre Hitem. revert acc.
  induction Hpre as [|x pre' [id Hx] _ IH]; intros acc; cbn.
  - now rewrite Hitem.
  - rewrite Hx. apply IH.
Qed.

(** A string that is neither a well-formed token nor one followed by a
    line feed is refused, and the error names it. *)
Lemma load_item_malformed_token (tok : string) :
  ~ well_formed_token tok ->
  (forall t, tok = t +:+ newline -> ~ well_formed_token t) ->
  load_item (JStr tok) = Raise (ValueError (UnrecognizedIdFormat tok)).
Proof.
  intros Hwf Hnl. cbn.
  destruct (ID_PAT_match tok) as [[g1 g2]|] eqn:E; [|reflexivity].
  exfalso. apply ID_PAT_match_inv in E as [Hg [->| ->]].
  - now apply Hwf.
  - apply (Hnl (g1 +:+ "_s" +:+ g2)); [|exact Hg].
    now rewrite !append_assoc.
Qed.

(** A record without a truthy problem or submission identifier is
    refused, and the error names it. *)
Lemma load_item_record_missing (members : list (string * json)) :
  json_truthy (obj_get members "problem_id") = false
  \/ json_truthy (obj_get members "submission_id") = false ->
  load_item (JObj members) = Raise (ValueError (DictIdMissingKeys (JObj members))).
Proof.
  intros H. cbn.
  destruct H as [-> | ->]; [reflexivity|].
  now rewrite andb_false_r.
Qed.

(** Any other shape is refused. *)
Lemma load_item_other_shape (item : json) :
  (forall tok, item <> JStr tok) -> (forall members, item <> JObj members) ->
  load_item item = Raise (ValueError (UnsupportedIdEntry item)).
Proof.
  intros Hs Ho. destruct item; try reflexivity.
  - now destruct (Hs s).
  - now destruct (Ho members).
Qed.

(** C2: an entry that is a string made of "p", five digits, "_s" and one
    or more digits loads as the pair of its "p"-part and of "s" followed
    by its trailing digits; in the list a successful [load_id_list]
    returns, that pair stands at the position of the entry. *)
Theorem load_id_list_well_formed_token
    (W : corpus) (fpath : string) (data : list json)
    (ids : list (json * json)) (i : nat) (d5 ds : string) :
  String.length d5 = 5 -> all_chars is_digit d5 = true ->
  truthy ds = true -> all_chars is_digit ds = true ->
  id_file_data W fpath = Some data ->
  data !! i = Some (JStr ("p" +:+ d5 +:+ "_s" +:+ ds)) ->
  load_id_list W fpath = Ok ids ->
  load_item (JStr ("p" +:+ d5 +:+ "_s" +:+ ds))
    = Ok (JStr ("p" +:+ d5), JStr ("s" +:+ ds))
  /\ ids !! i = Some (JStr ("p" +:+ d5), JStr ("s" +:+ ds)).
Proof.
  intros H5 Hd5 Hne Hds Hfile Hi Hload.
  assert (Hitem : load_item (JStr ("p" +:+ d5 +:+ "_s" +:+ ds))
                  = Ok (JStr ("p" +:+ d5), JStr ("s" +:+ ds))).
  { cbn [load_item]. now rewrite ID_PAT_match_well_formed. }
  split; [exact Hitem|].
  unfold load_id_list in Hload. rewrite Hfile in Hload.
  apply load_items_ok in Hload as (new & -> & Hall).
  destruct (Forall2_lookup_l _ _ _ _ _ Hall Hi) as (id & Hid & Hok).
  rewrite Hitem in Hok. inversion Hok; subst id. exact Hid.
Qed.

(** The token of the specification, in a two-entry id file. *)
Lemma load_id_list_well_formed_token_witness :
  load_item (JStr "p00023_s006384060") = Ok (JStr "p00023", JStr "s006384060")
  /\ [(JStr "p00023", JStr "s006384060"); (JStr "p00001", JStr "s000000001")]
       !! 0%nat = Some (JStr "p00023", JStr "s006384060").
Proof.
  apply (load_id_list_well_formed_token Demo.world "mixed-ids.json"
           [JStr "p00023_s006384060";
            JObj [("problem_id", JStr "p00001");
                  ("submission_id", JStr "s000000001")]]
           _ 0 "00023" "006384060");
    reflexivity.
Defined.

(** C3 at a token that ends in a line feed: the token is not well formed,
    yet it loads, as the pair of the token without the line feed, and the
    split is processed. *)
Theorem load_id_list_accepts_line_feed :
  ~ well_formed_token ("p00023_s006384060" +:+ newline)
  /\ load_id_list Demo.world "linefeed-ids.json"
     = Ok [(JStr "p00023", JStr "s006384060")]
  /\ snd (Demo.run_split "train" "linefeed-ids.json" Demo.empty_outputs)
     = Ok {| written := 0; no_meta := 1; no_file := 0 |}.
Proof.
  split; [|split; reflexivity].
  intros (d5 & ds & (a & b & c & d & e & ->)%length5 & _ & _ & Hds & E).
  rewrite !app_cons, !app_empty_l in E.
  injection E as <- <- <- <- <- <-. discriminate Hds.
Qed.

End Loader.

(** ** [build_submission_index] *)

Section Index.

Lemma index_row_eq (idx : gmap string (string * string * gmap string string))
    (r : gmap string string) :
  index_row idx r =
    match row_sid r with
    | Some sid => <[sid := (row_language r, row_filename sid r, r)]> idx
    | None => idx
    end.
Proof.
  unfold index_row, row_sid, row_filename, row_language.
  destruct (or_else _ _) as [sid|]; [|reflexivity].
  destruct (truthy sid); cbn [negb]; [|reflexivity].
  now destruct (truthy (strip (or_empty (r !! "filename")))).
Qed.

(** Rows that follow and carry another key leave an entry alone. *)
Lemma fold_index_row_other (rows : list (gmap string string)) (sid : string)
    (idx : gmap string (string * string * gmap string string)) :
  Forall (fun r => row_sid r <> Some sid) rows ->
  fold_left index_row rows idx !! sid = idx !! sid.
Proof.
  intros H. revert idx. induction H as [|r rows Hr _ IH]; intros idx.
  - reflexivity.
  - cbn [fold_left]. rewrite IH, index_row_eq.
    destruct (row_sid r) as [k|]; [|reflexivity].
    apply lookup_insert_ne. congruence.
Qed.

Lemma guess_ext_strip (label : string) :
  guess_ext (strip label) = guess_ext label.
Proof.
  unfold guess_ext.
  now rewrite !contains_strip by reflexivity.
Qed.

(** C6, as the script has it: the file name of an indexed row is the
    row's file name with the white space around it removed, when that is
    not empty; otherwise the submission id followed by ".py" if the
    language label contains "Python", else by ".c" if it contains "C" and
    not "C++", else by ".cpp".  An empty file name with the language
    "C++" gives the submission id followed by ".cpp". *)
Theorem index_row_filename
    (idx : gmap string (string * string * gmap string string))
    (r : gmap string string) (sid : string) :
  row_sid r = Some sid ->
  exists filename,
    index_row idx r !! sid
      = Some (strip (or_empty (r !! "language")), filename, r)
    /\ (truthy (strip (or_empty (r !! "filename"))) = true ->
        filename = strip (or_empty (r !! "filename")))
    /\ (truthy (strip (or_empty (r !! "filename"))) = false ->
        (contains "Python" (or_empty (r !! "language")) = true ->
         filename = sid +:+ ".py")
        /\ (contains "Python" (or_empty (r !! "language")) = false ->
            contains "C" (or_empty (r !! "language")) = true ->
            contains "C++" (or_empty (r !! "language")) = false ->
            filename = sid +:+ ".c")
        /\ (contains "Python" (or_empty (r !! "language")) = false ->
            contains "C" (or_empty (r !! "language")) = false
            \/ contains "C++" (or_empty (r !! "language")) = true ->
            filename = sid +:+ ".cpp")
        /\ (or_empty (r !! "language") = "C++" ->
            filename = sid +:+ ".cpp")).
Proof.
  intros Hsid. exists (row_filename sid r). split.
  - rewrite index_row_eq, Hsid. apply lookup_insert_eq.
  - unfold row_filename, row_language. split; intros ->; [reflexivity|].
    rewrite guess_ext_strip. unfold guess_ext. repeat split.
    + now intros ->.
    + now intros -> -> ->.
    + intros -> [-> | ->]; [reflexivity|].
      now destruct (contains "C" _).
    + now intros ->.
Qed.

(** A row with a blank file name and the language "C++". *)
Lemma index_row_filename_witness :
  exists filename,
    index_row ∅ Demo.row2 !! "s000000002" = Some ("C++", filename, Demo.row2)
    /\ filename = "s000000002.cpp".
Proof.
  destruct (index_row_filename ∅ Demo.row2 "s000000002" eq_refl)
    as (filename & Hidx & _ & Hderived).
  exists filename. split; [exact Hidx|].
  destruct (Hderived eq_refl) as (_ & _ & _ & Hcpp). now apply Hcpp.
Defined.

(** C6 as stated fails on a file name with a blank in front: it is not
    empty, and the index holds it trimmed, not verbatim. *)
Lemma index_row_trims_filename :
  let r : gmap string string :=
    {[ "submission_id" := "s1"; "language" := "C"; "filename" := " a.c" ]} in
  r !! "filename" = Some " a.c"
  /\ (fun e => snd (fst e)) <$> (index_row ∅ r !! "s1") = Some "a.c"
  /\ "a.c" <> " a.c".
Proof. split; [reflexivity|split; [reflexivity|discriminate]]. Qed.

End Index.

(** ** Grouping by problem *)

Section Grouping.

Lemma key_eqb_is_key (k k' : key) (pid : string) :
  key_eqb k k' = true -> is_key pid k = is_key pid k'.
Proof.
  destruct k as [|b|z|p], k' as [|b'|z'|p']; cbn; try discriminate;
    try reflexivity.
  now intros ->%String.eqb_eq.
Qed.







Lemma setdefault_append_size (by_problem : list (key * list json))
    (k : key) (sj : json) :
  group_size (setdefault_append by_problem k sj) = S (group_size by_problem).
Proof.
  induction by_problem as [|[k0 sids] rest IH]; cbn; [reflexivity|].
  destruct (key_eqb k0 k); cbn; [rewrite length_app; cbn; lia|].
  rewrite IH. lia.
Qed.

(** Grouping keeps the number of submissions. *)
Lemma group_by_problem_size (ids : list (json * json))
    (by_problem grouped : list (key * list json)) :
  group_by_problem ids by_problem = Ok grouped ->
  group_size grouped = group_size by_problem + length ids.
Proof.
  revert by_problem. induction ids as [|[pj sj] rest IH]; intros bp H.
  - inversion H; subst. cbn. lia.
  - cbn in H. destruct (to_key pj) as [k|]; [|discriminate].
    rewrite (IH _ H), setdefault_append_size. cbn. lia.
Qed.

End Grouping.

(** ** The loops of [extract_split] *)

Section RunFacts.

Variable CODENET_ROOT : string.
Variable joinpath : string -> string -> string.
Variable decode : encoding -> string -> string.
Variable W : corpus.

Local Infix "//" := joinpath (at level 40, left associativity).

Local Abbreviation build_submission_index :=
  (Script.build_submission_index CODENET_ROOT joinpath W).
Local Abbreviation read_code := (Script.read_code decode W).
Local Abbreviation process_sid :=
  (Script.process_sid CODENET_ROOT joinpath decode W).
Local Abbreviation process_sids :=
  (Script.process_sids CODENET_ROOT joinpath decode W).
Local Abbreviation process_group :=
  (Script.process_group CODENET_ROOT joinpath decode W).
Local Abbreviation process_groups :=
  (Script.process_groups CODENET_ROOT joinpath decode W).

(** An entry that fails to load ends [extract_split] before the output
    file is opened: the files stay as they were and the error leaves the
    function. *)
Lemma extract_split_load_failure
    (split_name id_file : string) (fs : outputs)
    (pre post : list json) (item : json) (e : exn) :
  id_file_data W id_file = Some (pre ++ item :: post)%list ->
  Forall (fun x => exists id, load_item x = Ok id) pre ->
  load_item item = Raise e ->
  extract_split CODENET_ROOT joinpath decode W split_name id_file fs
  = (fs, Raise e).
Proof.
  intros Hfile Hpre Hitem. unfold extract_split, load_id_list.
  rewrite Hfile. now rewrite (load_items_fail_fast _ _ _ _ _ Hpre Hitem).
Qed.

(** C10: when several rows of a problem's table carry the same submission
    id, the index is built without any exception and maps the id to the
    language, file name and row of the last of them. *)
Theorem build_submission_index_last_row
    (pid : key) (pre post : list (gmap string string))
    (r : gmap string string) (sid : string) :
  metadata_rows W
    (CODENET_ROOT // "Project_CodeNet" // "metadata"
       // (format_key pid +:+ ".csv")) = Some (Rows (pre ++ r :: post)%list) ->
  row_sid r = Some sid ->
  Forall (fun r' => row_sid r' <> Some sid) post ->
  exists idx,
    build_submission_index pid = Ok idx
    /\ idx !! sid = Some (row_language r, row_filename sid r, r).
Proof.
  intros Hrows Hsid Hpost.
  unfold Script.build_submission_index.
  rewrite Hrows. eexists. split; [reflexivity|].
  rewrite fold_left_app. cbn [fold_left].
  rewrite (fold_index_row_other _ _ _ Hpost), index_row_eq, Hsid.
  apply lookup_insert_eq.
Qed.

(** C4: when the table of a problem does not exist, the indexer raises
    [FileNotFoundError]; the loop over the problems then adds the size of
    the group to the missing-metadata counter, writes no line, copies no
    file, leaves the other two counters alone and goes on with the
    problems that follow. *)
Theorem process_groups_missing_metadata
    (raw_root : string) (s : loop_state) (pid : key) (sids : list json)
    (rest : list (key * list json)) :
  metadata_rows W
    (CODENET_ROOT // "Project_CodeNet" // "metadata"
       // (format_key pid +:+ ".csv")) = None ->
  exists s',
    build_submission_index pid
      = Raise (FileNotFoundError
                 (MissingMetadataCsv
                    (CODENET_ROOT // "Project_CodeNet" // "metadata"
                       // (format_key pid +:+ ".csv"))))
    /\ process_group raw_root s (pid, sids) = Done s'
    /\ missing_meta s' = missing_meta s + length sids
    /\ out s' = out s /\ raw s' = raw s
    /\ count_written s' = count_written s
    /\ missing_file s' = missing_file s
    /\ process_groups raw_root s ((pid, sids) :: rest)
       = process_groups raw_root s' rest.
Proof.
  intros Hnone. exists (add_missing_meta (length sids) s).
  assert (Hidx : build_submission_index pid
            = Raise (FileNotFoundError
                       (MissingMetadataCsv
                          (CODENET_ROOT // "Project_CodeNet" // "metadata"
                             // (format_key pid +:+ ".csv"))))).
  { unfold Script.build_submission_index. now rewrite Hnone. }
  assert (Hgroup : process_group raw_root s (pid, sids)
                   = Done (add_missing_meta (length sids) s)).
  { unfold Script.process_group. now rewrite Hidx. }
  repeat split; try assumption.
  cbn [Script.process_groups]. now rewrite Hgroup.
Qed.

(** C5: a submission that the index knows and whose source path does not
    exist adds one to the missing-file counter, writes no line, copies no
    file, and the loop goes on with the next submission. *)
Theorem process_sids_missing_file
    (raw_root : string) (s : loop_state) (pid sid : string)
    (idx : gmap string (string * string * gmap string string))
    (language filename : string) (meta : gmap string string)
    (rest : list json) :
  idx !! sid = Some (language, filename, meta) ->
  source_file W
    (CODENET_ROOT // "Project_CodeNet" // "data" // pid // language
       // filename) = Absent ->
  exists s',
    process_sid raw_root (KStr pid) idx s (JStr sid) = Done s'
    /\ missing_file s' = missing_file s + 1
    /\ out s' = out s /\ raw s' = raw s
    /\ count_written s' = count_written s
    /\ missing_meta s' = missing_meta s
    /\ process_sids raw_root (KStr pid) idx s (JStr sid :: rest)
       = process_sids raw_root (KStr pid) idx s' rest.
Proof.
  intros Hidx Habsent. exists (add_missing_file s).
  assert (Hstep : process_sid raw_root (KStr pid) idx s (JStr sid)
                  = Done (add_missing_file s)).
  { unfold Script.process_sid.
    cbn [to_key key_str resolve_source_path]. rewrite Hidx.
    unfold exists_file. now rewrite Habsent. }
  repeat split; try assumption.
  cbn [Script.process_sids]. now rewrite Hstep.
Qed.

(** C7: the text of a file that is there is the lossy decoding of its
    bytes as UTF-8 when the first read goes through, whatever the bytes
    are; when the first read raises, the file is read again as Latin-1,
    and only an error of that second read reaches the caller. *)
Theorem read_code_two_tier
    (path content : string) (read_error : encoding -> option nat) :
  source_file W path = Present content read_error ->
  (read_error Utf8 = None -> read_code path = Ok (decode Utf8 content))
  /\ (forall e, read_error Utf8 = Some e -> read_error Latin1 = None ->
      read_code path = Ok (decode Latin1 content))
  /\ (forall e e', read_error Utf8 = Some e -> read_error Latin1 = Some e' ->
      read_code path = Raise (OSError e')).
Proof.
  intros Hfile. unfold Script.read_code, read_text.
  rewrite Hfile. repeat split.
  - now intros ->.
  - now intros e -> ->.
  - now intros e e' -> ->.
Qed.

(** *** Lines are only appended *)


Local Ltac same_lines :=
  exists []; cbn; rewrite app_nil_r; repeat split; lia.

Local Ltac one_line line := exists [line]; cbn; repeat split; lia.

Lemma extends_refl (s : loop_state) : extends 0 s s.
Proof. same_lines. Qed.

Lemma extends_weaken (n m : nat) (s s' : loop_state) :
  n <= m -> extends n s s' -> extends m s s'.
Proof.
  intros Hle (new & Hout & Hcount & Hlen). exists new.
  repeat split; [assumption|assumption|lia].
Qed.

Lemma extends_trans (n m : nat) (a b c : loop_state) :
  extends n a b -> extends m b c -> extends (n + m) a c.
Proof.
  intros (n1 & H1 & C1 & L1) (n2 & H2 & C2 & L2). exists (n1 ++ n2)%list.
  rewrite H2, H1, C2, C1, length_app, <- app_assoc.
  repeat split; lia.
Qed.


Lemma process_sid_extends (raw_root : string) (pid : key)
    (idx : gmap string (string * string * gmap string string))
    (s : loop_state) (sid : json) :
  extends 1 s (state_of (process_sid raw_root pid idx s sid)).
Proof.
  unfold Script.process_sid.
  destruct (to_key sid) as [k|]; [|same_lines].
  destruct (match key_str k with Some x => idx !! x | None => None end)
    as [[[language filename] meta]|]; [|same_lines].
  destruct (resolve_source_path _ _ pid sid language filename) as [src|e];
    [|same_lines].
  destruct (exists_file W src); cbn [negb]; [|same_lines].
  destruct (Script.read_code decode W src) as [code|e]; [|same_lines].
  cbn [COPY_RAW]. unfold copy2.
  set (line := json_dumps _ +:+ newline).
  destruct (bool_decide _); [one_line line|].
  destruct (copy_error W src _) as [[errno [bytes|]]|];
    [one_line line|one_line line|].
  destruct (source_file W src); one_line line.
Qed.

Lemma process_sids_extends (raw_root : string) (pid : key)
    (idx : gmap string (string * string * gmap string string))
    (s : loop_state) (sids : list json) :
  extends (length sids) s (state_of (process_sids raw_root pid idx s sids)).
Proof.
  revert s. induction sids as [|sid rest IH]; intros s; [apply extends_refl|].
  cbn [Script.process_sids length].
  pose proof (process_sid_extends raw_root pid idx s sid) as H.
  destruct (process_sid raw_root pid idx s sid) as [s1|e s1].
  - exact (extends_trans _ _ _ _ _ H (IH s1)).
  - apply (extends_weaken 1); [lia|exact H].
Qed.

Lemma process_group_extends (raw_root : string) (s : loop_state)
    (group : key * list json) :
  extends (length (snd group)) s (state_of (process_group raw_root s group)).
Proof.
  destruct group as [pid sids]. unfold Script.process_group. cbn [snd].
  destruct (build_submission_index pid) as [idx|e];
    [apply process_sids_extends|].
  destruct e; same_lines.
Qed.

Lemma process_groups_extends (raw_root : string) (s : loop_state)
    (by_problem : list (key * list json)) :
  extends (group_size by_problem) s
    (state_of (process_groups raw_root s by_problem)).
Proof.
  revert s. induction by_problem as [|[pid sids] rest IH]; intros s;
    [apply extends_refl|].
  cbn [Script.process_groups group_size].
  pose proof (process_group_extends raw_root s (pid, sids)) as H.
  cbn [snd] in H.
  destruct (process_group raw_root s (pid, sids)) as [s1|e s1].
  - exact (extends_trans _ _ _ _ _ H (IH s1)).
  - apply (extends_weaken (length sids)); [lia|exact H].
Qed.

(** *** The raw tree is only overwritten

    When no source file is read-only, no copy locks its destination:
    the locked copies stay the same, and a loop run on another raw tree
    with the same locked copies does the same and leaves that tree with
    the same files laid over. *)

Section Writable.

Hypothesis Hwritable : forall src, source_read_only W src = false.










End Writable.


(** *** A submission that is written *)

(** An indexed submission whose file is there and read at the first
    attempt, and whose copy goes through: one line is written, made of
    the fields of the index and of the lossy UTF-8 decoding of the file,
    and the bytes of the file are copied under the raw root, with the
    permission bits of the file. *)
Lemma process_sid_written (raw_root : string) (s : loop_state)
    (pid sid language filename content : string)
    (meta : gmap string string) (read_error : encoding -> option nat)
    (idx : gmap string (string * string * gmap string string)) :
  idx !! sid = Some (language, filename, meta) ->
  source_file W
    (CODENET_ROOT // "Project_CodeNet" // "data" // pid // language
       // filename) = Present content read_error ->
  read_error Utf8 = None ->
  raw_root // pid // language // filename ∉ locked s ->
  copy_error W
    (CODENET_ROOT // "Project_CodeNet" // "data" // pid // language
       // filename)
    (raw_root // pid // language // filename) = None ->
  process_sid raw_root (KStr pid) idx s (JStr sid)
  = Done
      (copy_raw (raw_root // pid // language // filename) content
         (source_read_only W
            (CODENET_ROOT // "Project_CodeNet" // "data" // pid // language
               // filename))
         (write_line
            (record_line pid sid language filename meta
               (decode Utf8 content)) s)).
Proof.
  intros Hidx Hfile Hread Hfree Hcopy. unfold Script.process_sid.
  cbn [to_key key_str resolve_source_path]. rewrite Hidx.
  unfold exists_file, Script.read_code, read_text, copy2.
  rewrite Hfile, Hread. cbn [negb COPY_RAW format_key locked write_line].
  rewrite (bool_decide_eq_false_2 _ Hfree).
  now rewrite Hcopy.
Qed.

(** *** One line per occurrence *)

Section Resolved.

(** A submission that resolves: the index of its problem knows it and its
    file can be read. *)
Variables (pid sid language filename code : string).
Variable meta : gmap string string.
Variable idx : gmap string (string * string * gmap string string).

Hypothesis Hidx : idx !! sid = Some (language, filename, meta).
Hypothesis Hcode :
  read_code
    (CODENET_ROOT // "Project_CodeNet" // "data" // pid // language
       // filename) = Ok code.

Local Abbreviation line := (record_line pid sid language filename meta code).



Hypothesis Hindex : build_submission_index (KStr pid) = Ok idx.


End Resolved.


End RunFacts.

(** ** The theorems on the small corpus *)

Section Concrete.

Local Abbreviation process_sid :=
  (Script.process_sid Demo.root Demo.join Demo.decode Demo.world).
Local Abbreviation process_sids :=
  (Script.process_sids Demo.root Demo.join Demo.decode Demo.world).
Local Abbreviation process_group :=
  (Script.process_group Demo.root Demo.join Demo.decode Demo.world).
Local Abbreviation process_groups :=
  (Script.process_groups Demo.root Demo.join Demo.decode Demo.world).

(** Problem p00002 has two rows for s000000005; the later one is kept. *)
Lemma build_submission_index_last_row_witness :
  exists idx,
    build_submission_index Demo.root Demo.join Demo.world (KStr "p00002")
      = Ok idx
    /\ idx !! "s000000005" = Some ("C", "flaky.c", Demo.row4).
Proof.
  apply (build_submission_index_last_row Demo.root Demo.join Demo.world
           (KStr "p00002") [Demo.row3] [Demo.row1] Demo.row4 "s000000005").
  - reflexivity.
  - reflexivity.
  - repeat constructor. vm_compute. discriminate.
Defined.

(** Problem p00009 has no table: its two submissions are counted, and
    the submission of p00001 after it is written. *)
Lemma process_groups_missing_metadata_witness :
  exists s',
    process_group Demo.raw_root Demo.start
      (KStr "p00009", [JStr "s000000007"; JStr "s000000008"]) = Done s'
    /\ missing_meta s' = 2 /\ out s' = []
    /\ process_groups Demo.raw_root Demo.start
         [(KStr "p00009", [JStr "s000000007"; JStr "s000000008"]);
          (KStr "p00001", [JStr "s000000001"])]
       = process_groups Demo.raw_root s' [(KStr "p00001", [JStr "s000000001"])].
Proof.
  destruct (process_groups_missing_metadata Demo.root Demo.join Demo.decode
              Demo.world Demo.raw_root Demo.start (KStr "p00009")
              [JStr "s000000007"; JStr "s000000008"]
              [(KStr "p00001", [JStr "s000000001"])] eq_refl)
    as (s' & _ & Hgroup & Hmeta & Hout & _ & _ & _ & Hrest).
  exists s'. repeat split; assumption.
Defined.

(** The file of s000000002 is not in the corpus. *)
Lemma process_sids_missing_file_witness :
  exists s',
    process_sid Demo.raw_root (KStr "p00001") Demo.index1 Demo.start
      (JStr "s000000002") = Done s'
    /\ missing_file s' = 1 /\ out s' = [] /\ raw s' = ∅
    /\ process_sids Demo.raw_root (KStr "p00001") Demo.index1 Demo.start
         [JStr "s000000002"; JStr "s000000001"]
       = process_sids Demo.raw_root (KStr "p00001") Demo.index1 s'
           [JStr "s000000001"].
Proof.
  destruct (process_sids_missing_file Demo.root Demo.join Demo.decode
              Demo.world Demo.raw_root Demo.start "p00001" "s000000002"
              Demo.index1 "C++" "s000000002.cpp" Demo.row2
              [JStr "s000000001"] eq_refl eq_refl)
    as (s' & Hstep & Hfile & Hout & Hraw & _ & _ & Hrest).
  exists s'. repeat split; assumption.
Defined.

(** A file whose first read fails and whose second read goes through. *)
Lemma read_code_two_tier_witness :
  read_code Demo.decode Demo.world
    "/codenet/Project_CodeNet/data/p00001/C/flaky.c" = Ok "main(){}".
Proof.
  destruct (read_code_two_tier Demo.decode Demo.world
              "/codenet/Project_CodeNet/data/p00001/C/flaky.c" "main(){}"
              (fun enc => match enc with Utf8 => Some 5%nat | Latin1 => None end)
              eq_refl)
    as (_ & Hretry & _).
  exact (Hretry 5%nat eq_refl eq_refl).
Defined.




End Concrete.

(** ** The end-to-end scenario

    The test split names one submission of problem p00001, a Python file
    holding [print(1)] with status AC: one line and one raw copy. *)

Section Scenario.

Example end_to_end :
  Demo.run_split "test" "data/2021-12-29-f=0.01/test-ids.json"
    Demo.empty_outputs
  = ({| jsonl :=
          {[ "data/codenet_extract/test.jsonl" :=
               [record_line "p00001" "s000000001" "Python" "a.py" Demo.row1
                  "print(1)"] ]};
        raw_files :=
          {[ "data/codenet_extract/raw/test/p00001/Python/a.py" :=
               "print(1)" ]};
        raw_locked := ∅ |},
     Ok {| written := 1; no_meta := 0; no_file := 0 |}).
Proof. reflexivity. Qed.

Example end_to_end_line :
  record_line "p00001" "s000000001" "Python" "a.py" Demo.row1 "print(1)"
  = "{" +:+ quote +:+ "problem_id" +:+ quote +:+ ": "
        +:+ quote +:+ "p00001" +:+ quote +:+ ", "
        +:+ quote +:+ "submission_id" +:+ quote +:+ ": "
        +:+ quote +:+ "s000000001" +:+ quote +:+ ", "
        +:+ quote +:+ "language" +:+ quote +:+ ": "
        +:+ quote +:+ "Python" +:+ quote +:+ ", "
        +:+ quote +:+ "filename" +:+ quote +:+ ": "
        +:+ quote +:+ "a.py" +:+ quote +:+ ", "
        +:+ quote +:+ "status" +:+ quote +:+ ": "
        +:+ quote +:+ "AC" +:+ quote +:+ ", "
        +:+ quote +:+ "label" +:+ quote +:+ ": "
        +:+ quote +:+ "no_error" +:+ quote +:+ ", "
        +:+ quote +:+ "code" +:+ quote +:+ ": "
        +:+ quote +:+ "print(1)" +:+ quote +:+ "}" +:+ newline.
Proof. reflexivity. Qed.

(** An id file whose second token has four digits after the "p": the
    split stops at the loader, and no file is written. *)
Example malformed_token_stops_the_split :
  Demo.run_split "train" "broken-ids.json" Demo.empty_outputs
  = (Demo.empty_outputs,
     Raise (ValueError (UnrecognizedIdFormat "p0001_s000000001"))).
Proof. reflexivity. Qed.

End Scenario.

(** * Further properties *)

(** ** More on strings *)

Section MoreStrings.

Lemma is_space_upper_char (c : ascii) : is_space (upper_char c) = is_space c.
Proof. destruct c as [[] [] [] [] [] [] [] []]; reflexivity. Qed.

Lemma upper_upper_char (c : ascii) : upper_char (upper_char c) = upper_char c.
Proof. destruct c as [[] [] [] [] [] [] [] []]; reflexivity. Qed.

Lemma lower_lower_char (c : ascii) : lower_char (lower_char c) = lower_char c.
Proof. destruct c as [[] [] [] [] [] [] [] []]; reflexivity. Qed.

Lemma map_chars_twice (f : ascii -> ascii) (s : string) :
  (forall c, f (f c) = f c) -> map_chars f (map_chars f s) = map_chars f s.
Proof.
  intros Hf. induction s as [|c r IH]; [reflexivity|].
  cbn [map_chars]. now rewrite Hf, IH.
Qed.

Lemma truthy_map_chars (f : ascii -> ascii) (s : string) :
  truthy (map_chars f s) = truthy s.
Proof. now destruct s. Qed.

Lemma lstrip_upper (s : string) : lstrip (upper s) = upper (lstrip s).
Proof.
  induction s as [|c r IH]; [reflexivity|].
  change (upper (String c r)) with (String (upper_char c) (upper r)).
  cbn [lstrip]. rewrite is_space_upper_char.
  now destruct (is_space c).
Qed.

Lemma rstrip_upper (s : string) : rstrip (upper s) = upper (rstrip s).
Proof.
  induction s as [|c r IH]; [reflexivity|].
  change (upper (String c r)) with (String (upper_char c) (upper r)).
  cbn [rstrip]. rewrite IH, is_space_upper_char.
  destruct (rstrip r); [now destruct (is_space c)|reflexivity].
Qed.

Lemma strip_upper (s : string) : strip (upper s) = upper (strip s).
Proof. unfold strip. now rewrite lstrip_upper, rstrip_upper. Qed.

Lemma rstrip_spaces (r : string) : all_chars is_space r = true -> rstrip r = "".
Proof.
  induction r as [|c r IH]; [reflexivity|]. cbn.
  intros [Hc Hr]%andb_true_iff. now rewrite (IH Hr), Hc.
Qed.

Lemma lstrip_spaces (l s : string) :
  all_chars is_space l = true -> lstrip (l +:+ s) = lstrip s.
Proof.
  induction l as [|c l IH]; [reflexivity|]. cbn [all_chars].
  intros [Hc Hl]%andb_true_iff. rewrite app_cons. cbn [lstrip].
  now rewrite Hc, IH.
Qed.

Lemma rstrip_app_spaces (s r : string) :
  all_chars is_space r = true -> rstrip (s +:+ r) = rstrip s.
Proof.
  intros Hr. induction s as [|c s IH].
  - rewrite app_empty_l. now apply rstrip_spaces.
  - rewrite app_cons. cbn [rstrip]. now rewrite IH.
Qed.

Lemma strip_app_spaces (s r : string) :
  all_chars is_space r = true -> strip (s +:+ r) = strip s.
Proof.
  intros Hr. unfold strip. induction s as [|c s IH].
  - rewrite app_empty_l.
    rewrite <- (app_empty_r r), (lstrip_spaces r "" Hr). reflexivity.
  - rewrite app_cons. cbn [lstrip]. destruct (is_space c); [exact IH|].
    rewrite <- app_cons. now apply rstrip_app_spaces.
Qed.

Lemma strip_padded (l s r : string) :
  all_chars is_space l = true -> all_chars is_space r = true ->
  strip (l +:+ s +:+ r) = strip s.
Proof.
  intros Hl Hr. unfold strip at 1. rewrite (lstrip_spaces _ _ Hl).
  now apply strip_app_spaces.
Qed.

End MoreStrings.

(** ** More on [map_status_to_label] *)

Section MoreLabels.

(** X1: the label does not depend on the case of the status: two
    statuses with the same upper-cased form get the same label. *)
Theorem map_status_to_label_case (a b : string) :
  upper a = upper b -> map_status_to_label a = map_status_to_label b.
Proof.
  intros H. unfold map_status_to_label.
  rewrite <- (truthy_map_chars upper_char a), <- (truthy_map_chars upper_char b).
  fold (upper a) (upper b).
  rewrite <- !strip_upper, H. reflexivity.
Qed.

Lemma map_status_to_label_case_witness :
  map_status_to_label " Tle" = map_status_to_label " tLE".
Proof. apply map_status_to_label_case. reflexivity. Defined.

(** X2: white space around a status that is not empty does not change
    its label. *)
Theorem map_status_to_label_padding (l s r : string) :
  all_chars is_space l = true -> all_chars is_space r = true ->
  truthy s = true ->
  map_status_to_label (l +:+ s +:+ r) = map_status_to_label s.
Proof.
  intros Hl Hr Hs. unfold map_status_to_label.
  rewrite (strip_padded _ _ _ Hl Hr), Hs.
  assert (Ht : truthy (l +:+ s +:+ r) = true).
  { destruct l as [|c l]; [|reflexivity]. rewrite app_empty_l.
    destruct s; [discriminate|reflexivity]. }
  now rewrite Ht.
Qed.

Lemma map_status_to_label_padding_witness :
  map_status_to_label ("  " +:+ "mle" +:+ (" " +:+ newline))
  = map_status_to_label "mle".
Proof. apply map_status_to_label_padding; reflexivity. Defined.

(** X3: a label has no upper-case letter: lower-casing it changes
    nothing. *)
Theorem map_status_to_label_lower (status : string) :
  lower (map_status_to_label status) = map_status_to_label status.
Proof.
  unfold map_status_to_label.
  destruct (negb (truthy status)); [reflexivity|].
  repeat (destruct (String.eqb _ _); [reflexivity|]).
  apply (map_chars_twice lower_char), lower_lower_char.
Qed.

End MoreLabels.

(** ** More on [load_id_list] *)

Section MoreLoader.

Lemma span_all_then (p : ascii -> bool) (s : string) (c : ascii) (r : string) :
  all_chars p s = true -> p c = false ->
  span p (s +:+ String c r) = (s, String c r).
Proof.
  intros Hs Hc. induction s as [|d t IH].
  - rewrite app_empty_l. cbn [span]. now rewrite Hc.
  - cbn [all_chars] in Hs. apply andb_true_iff in Hs as [Hd Ht].
    rewrite app_cons. cbn [span]. now rewrite Hd, (IH Ht).
Qed.

(** A well-formed token followed by a line feed matches as well. *)
Lemma ID_PAT_match_line_feed (d5 ds : string) :
  String.length d5 = 5 -> all_chars is_digit d5 = true ->
  truthy ds = true -> all_chars is_digit ds = true ->
  ID_PAT_match (("p" +:+ d5 +:+ "_s" +:+ ds) +:+ newline)
  = Some ("p" +:+ d5, ds).
Proof.
  intros (a & b & c & d & e & ->)%length5 H5 Hne Hds.
  unfold ID_PAT_match. repeat (rewrite app_cons || rewrite app_empty_l).
  cbn [String.prefix take drop String.length Nat.eqb].
  destruct (Ascii.ascii_dec "p" "p") as [_|?]; [|congruence].
  rewrite H5. cbn [andb].
  destruct (Ascii.ascii_dec "_" "_") as [_|?]; [|congruence].
  destruct (Ascii.ascii_dec "s" "s") as [_|?]; [|congruence].
  unfold newline.
  rewrite (span_all_then is_digit ds (ascii_of_nat 10) "" Hds eq_refl), Hne.
  destruct ds as [|x ds']; [discriminate|reflexivity].
Qed.

(** The groups of a match, and the token they come from. *)
Lemma ID_PAT_match_shape (tok g1 g2 : string) :
  ID_PAT_match tok = Some (g1, g2) ->
  exists d5,
    g1 = "p" +:+ d5
    /\ String.length d5 = 5 /\ all_chars is_digit d5 = true
    /\ truthy g2 = true /\ all_chars is_digit g2 = true
    /\ (tok = "p" +:+ d5 +:+ "_s" +:+ g2
        \/ tok = ("p" +:+ d5 +:+ "_s" +:+ g2) +:+ newline).
Proof.
  unfold ID_PAT_match. intros H.
  destruct (String.prefix "p" tok) eqn:Hp; [|discriminate].
  apply prefix_drop in Hp. cbn [String.length] in Hp.
  destruct (Nat.eqb _ 5 && _) eqn:H5; [|discriminate].
  apply andb_true_iff in H5 as [Hlen Hd5]. apply Nat.eqb_eq in Hlen.
  destruct (String.prefix "_s" (drop 6 tok)) eqn:Hs; [|discriminate].
  apply prefix_drop in Hs. cbn [String.length] in Hs.
  destruct (span is_digit (drop 2 (drop 6 tok))) as [digits rest] eqn:Hsp.
  apply span_app in Hsp as [Hrest Hdig].
  destruct (truthy digits) eqn:Hne; [|discriminate].
  destruct (String.eqb rest "" || String.eqb rest newline) eqn:Hend;
    [|discriminate].
  cbn [andb] in H. inversion H; subst g1 g2; clear H.
  assert (E : drop 5 (drop 1 tok) = drop 6 tok) by (now destruct tok).
  assert (Htok : tok = "p" +:+ take 5 (drop 1 tok) +:+ "_s" +:+ digits +:+ rest).
  { rewrite Hp at 1. rewrite (take_drop 5 (drop 1 tok)) at 1.
    rewrite E. rewrite Hs at 1. rewrite Hrest at 1.
    reflexivity. }
  exists (take 5 (drop 1 tok)). repeat split; try assumption.
  apply orb_true_iff in Hend as [R|R]; apply String.eqb_eq in R; subst rest.
  - left. rewrite Htok at 1. now rewrite app_empty_r.
  - right. rewrite Htok at 1. now rewrite !append_assoc.
Qed.

(** X4: a successful [load_id_list] returns one pair per entry of the id
    file, in the order of the entries. *)
Theorem load_id_list_in_order
    (W : corpus) (fpath : string) (data : list json)
    (ids : list (json * json)) :
  id_file_data W fpath = Some data ->
  load_id_list W fpath = Ok ids ->
  length ids = length data
  /\ Forall2 (fun item id => load_item item = Ok id) data ids.
Proof.
  intros Hfile Hload. unfold load_id_list in Hload. rewrite Hfile in Hload.
  apply load_items_ok in Hload as (new & -> & Hall). cbn [app].
  split; [symmetry; exact (Forall2_length _ _ _ Hall)|exact Hall].
Qed.

Lemma load_id_list_in_order_witness :
  length [(JStr "p00023", JStr "s006384060"); (JStr "p00001", JStr "s000000001")]
  = length [JStr "p00023_s006384060";
            JObj [("problem_id", JStr "p00001");
                  ("submission_id", JStr "s000000001")]]
  /\ Forall2 (fun item id => load_item item = Ok id)
       [JStr "p00023_s006384060";
        JObj [("problem_id", JStr "p00001");
              ("submission_id", JStr "s000000001")]]
       [(JStr "p00023", JStr "s006384060"); (JStr "p00001", JStr "s000000001")].
Proof.
  apply (load_id_list_in_order Demo.world "mixed-ids.json"); reflexivity.
Defined.

(** X5: an ASCII string entry loads exactly when it is "p", five of the
    digits 0-9, "_s" and one or more of the digits 0-9, alone or followed
    by one line feed; the pair is then the "p"-part and "s" followed by
    the digits.  (Outside ASCII, [\d] matches more than 0-9.) *)
Theorem load_item_token_iff (tok : string) (id : json * json) :
  is_ascii tok = true ->
  load_item (JStr tok) = Ok id
  <-> exists d5 ds,
        String.length d5 = 5 /\ all_chars is_digit d5 = true
        /\ truthy ds = true /\ all_chars is_digit ds = true
        /\ (tok = "p" +:+ d5 +:+ "_s" +:+ ds
            \/ tok = ("p" +:+ d5 +:+ "_s" +:+ ds) +:+ newline)
        /\ id = (JStr ("p" +:+ d5), JStr ("s" +:+ ds)).
Proof.
  intros _. split.
  - cbn [load_item].
    destruct (ID_PAT_match tok) as [[g1 g2]|] eqn:E; [|discriminate].
    intros H. inversion H; subst id; clear H.
    apply ID_PAT_match_shape in E as (d5 & -> & H5 & Hd5 & Hne & Hds & Htok).
    exists d5, g2. repeat split; assumption.
  - intros (d5 & ds & H5 & Hd5 & Hne & Hds & [-> | ->] & ->); cbn [load_item].
    + now rewrite ID_PAT_match_well_formed.
    + now rewrite ID_PAT_match_line_feed.
Qed.

(** X6: a record entry loads exactly when its problem and submission
    identifiers are both there and truthy; the pair is then those two
    values as they are, with no check against the pattern.  Any other
    record raises [ValueError] naming the record. *)
Theorem load_item_record_iff
    (members : list (string * json)) (pid sid : json) :
  (load_item (JObj members) = Ok (pid, sid)
   <-> pid = obj_get members "problem_id"
       /\ sid = obj_get members "submission_id"
       /\ json_truthy pid = true /\ json_truthy sid = true)
  /\ ((forall id, load_item (JObj members) <> Ok id)
      -> load_item (JObj members)
         = Raise (ValueError (DictIdMissingKeys (JObj members)))).
Proof.
  cbn [load_item]. split; [split|].
  - destruct (json_truthy _ && json_truthy _) eqn:E; cbn [negb];
      [|discriminate].
    intros H. inversion H; subst. apply andb_true_iff in E as [? ?].
    now repeat split.
  - intros (-> & -> & Hp & Hs). now rewrite Hp, Hs.
  - intros H. destruct (json_truthy _ && json_truthy _); cbn [negb];
      [|reflexivity].
    now destruct (H _ eq_refl).
Qed.

End MoreLoader.

Section MoreLoaderRuns.

Lemma load_item_token_iff_witness :
  load_item (JStr ("p00023_s006384060" +:+ newline))
  = Ok (JStr "p00023", JStr "s006384060").
Proof.
  apply load_item_token_iff; [reflexivity|]. exists "00023", "006384060".
  split; [reflexivity|]. split; [reflexivity|]. split; [reflexivity|].
  split; [reflexivity|]. split; [right; reflexivity|reflexivity].
Defined.

Lemma load_item_record_iff_witness :
  load_item (JObj [("submission_id", JNum 7); ("problem_id", JStr "anything")])
  = Ok (JStr "anything", JNum 7).
Proof.
  apply (proj1 (load_item_record_iff
                  [("submission_id", JNum 7); ("problem_id", JStr "anything")]
                  (JStr "anything") (JNum 7))).
  repeat split.
Defined.

End MoreLoaderRuns.

(** ** More on [build_submission_index] *)

Section MoreIndex.

Lemma fold_index_row_lookup (rows : list (gmap string string))
    (idx0 : gmap string (string * string * gmap string string))
    (sid : string) (e : string * string * gmap string string) :
  fold_left index_row rows idx0 !! sid = Some e ->
  idx0 !! sid = Some e
  \/ exists r, r ∈ rows /\ row_sid r = Some sid
               /\ e = (row_language r, row_filename sid r, r).
Proof.
  revert idx0. induction rows as [|r rows IH]; intros idx0 H; [now left|].
  cbn [fold_left] in H. destruct (IH _ H) as [H0|(r' & Hin & Hsid & He)].
  - rewrite index_row_eq in H0. destruct (row_sid r) as [k|] eqn:Hk.
    + destruct (decide (k = sid)) as [->|Hne].
      * rewrite lookup_insert_eq in H0. inversion H0; subst e.
        right. exists r. split; [apply list_elem_of_here|now split].
      * rewrite lookup_insert_ne in H0 by exact Hne. now left.
    + now left.
  - right. exists r'. split; [now apply list_elem_of_further|now split].
Qed.

Lemma fold_index_row_mono (rows : list (gmap string string))
    (idx0 : gmap string (string * string * gmap string string))
    (sid : string) :
  is_Some (idx0 !! sid) -> is_Some (fold_left index_row rows idx0 !! sid).
Proof.
  revert idx0. induction rows as [|r rows IH]; intros idx0 H; [exact H|].
  cbn [fold_left]. apply IH. rewrite index_row_eq.
  destruct (row_sid r) as [k|]; [|exact H].
  destruct (decide (k = sid)) as [->|Hne].
  - rewrite lookup_insert_eq. eauto.
  - now rewrite lookup_insert_ne.
Qed.

Lemma fold_index_row_some (rows : list (gmap string string))
    (idx0 : gmap string (string * string * gmap string string))
    (sid : string) (r : gmap string string) :
  r ∈ rows -> row_sid r = Some sid ->
  is_Some (fold_left index_row rows idx0 !! sid).
Proof.
  intros Hin Hsid. revert idx0.
  induction Hin as [r rows|r r' rows _ IH]; intros idx0; cbn [fold_left].
  - apply fold_index_row_mono. rewrite index_row_eq, Hsid, lookup_insert_eq.
    eauto.
  - apply IH, Hsid.
Qed.

Lemma row_sid_truthy (r : gmap string string) (sid : string) :
  row_sid r = Some sid -> truthy sid = true.
Proof.
  unfold row_sid. destruct (or_else _ _) as [k|]; [|discriminate].
  destruct (truthy k) eqn:E; [|discriminate]. now intros [= <-].
Qed.

Lemma truthy_app (a b : string) : truthy a = true -> truthy (a +:+ b) = true.
Proof. now destruct a. Qed.

Lemma row_filename_truthy (r : gmap string string) (sid : string) :
  truthy sid = true -> truthy (row_filename sid r) = true.
Proof.
  intros H. unfold row_filename.
  destruct (truthy (strip _)) eqn:E; [exact E|now apply truthy_app].
Qed.

(** X8: the key of a row is its submission_id when that is there and not
    empty, whatever the id column holds; otherwise its id when that is
    there and not empty; a row with neither leaves the index as it is. *)
Theorem index_row_key
    (idx : gmap string (string * string * gmap string string))
    (r : gmap string string) :
  (forall s, r !! "submission_id" = Some s -> truthy s = true ->
     index_row idx r = <[s := (row_language r, row_filename s r, r)]> idx)
  /\ (forall i,
        r !! "submission_id" = None \/ r !! "submission_id" = Some "" ->
        r !! "id" = Some i -> truthy i = true ->
        index_row idx r = <[i := (row_language r, row_filename i r, r)]> idx)
  /\ (r !! "submission_id" = None \/ r !! "submission_id" = Some "" ->
      r !! "id" = None \/ r !! "id" = Some "" ->
      index_row idx r = idx).
Proof.
  rewrite index_row_eq. unfold row_sid, or_else. repeat split.
  - intros s -> Hs. now rewrite Hs, Hs.
  - intros i [-> | ->] -> Hi; cbn; now rewrite Hi.
  - intros [-> | ->] [-> | ->]; reflexivity.
Qed.

Lemma index_row_key_witness :
  index_row ∅ Demo2.by_id
  = <[ "s000000009" := (row_language Demo2.by_id,
                        row_filename "s000000009" Demo2.by_id,
                        Demo2.by_id) ]> ∅.
Proof.
  destruct (index_row_key ∅ Demo2.by_id) as (_ & Hid & _).
  apply Hid; [right|..]; reflexivity.
Defined.

Variable CODENET_ROOT : string.
Variable joinpath : string -> string -> string.
Variable W : corpus.
Local Infix "//" := joinpath (at level 40, left associativity).

(** X7: the index of a problem has exactly the keys of the rows of its
    table that have one, and what it holds under a key is the language,
    the file name and the row itself of a row with that key. *)
Theorem build_submission_index_entries
    (pid : key) (rows : list (gmap string string))
    (idx : gmap string (string * string * gmap string string))
    (sid : string) :
  metadata_rows W
    (CODENET_ROOT // "Project_CodeNet" // "metadata"
       // (format_key pid +:+ ".csv")) = Some (Rows rows) ->
  build_submission_index CODENET_ROOT joinpath W pid = Ok idx ->
  (is_Some (idx !! sid) <-> exists r, r ∈ rows /\ row_sid r = Some sid)
  /\ (forall language filename r,
        idx !! sid = Some (language, filename, r) ->
        r ∈ rows /\ row_sid r = Some sid
        /\ language = row_language r /\ filename = row_filename sid r).
Proof.
  intros Hrows Hidx. unfold build_submission_index in Hidx.
  rewrite Hrows in Hidx. inversion Hidx; subst idx; clear Hidx.
  split; [split|].
  - intros [e He]. apply fold_index_row_lookup in He as [H0|(r & Hin & Hs & _)].
    + now rewrite lookup_empty in H0.
    + now exists r.
  - intros (r & Hin & Hs). exact (fold_index_row_some _ _ _ _ Hin Hs).
  - intros language filename r He.
    apply fold_index_row_lookup in He as [H0|(r' & Hin & Hs & He)].
    + now rewrite lookup_empty in H0.
    + inversion He; subst. now repeat split.
Qed.

(** X9: an index never has the empty string as a key, nor an empty file
    name under a key. *)
Theorem build_submission_index_not_empty
    (pid : key) (idx : gmap string (string * string * gmap string string))
    (sid language filename : string) (r : gmap string string) :
  build_submission_index CODENET_ROOT joinpath W pid = Ok idx ->
  idx !! sid = Some (language, filename, r) ->
  truthy sid = true /\ truthy filename = true.
Proof.
  intros Hidx He. unfold build_submission_index in Hidx.
  destruct (metadata_rows W _) as [[rows|[| |errno]]|]; try discriminate.
  inversion Hidx; subst idx; clear Hidx.
  apply fold_index_row_lookup in He as [H0|(r' & _ & Hs & He)].
  - now rewrite lookup_empty in H0.
  - inversion He; subst. apply row_sid_truthy in Hs.
    split; [exact Hs|now apply row_filename_truthy].
Qed.

End MoreIndex.

Section MoreIndexRuns.

(** The table of p00001 in the second corpus: a row keyed by
    submission_id, a row without a key, a row keyed by id. *)
Lemma build_submission_index_entries_witness :
  (is_Some (fold_left index_row [Demo.row1; Demo2.keyless; Demo2.by_id] ∅
              !! "s000000009")
   <-> exists r, r ∈ [Demo.row1; Demo2.keyless; Demo2.by_id]
                 /\ row_sid r = Some "s000000009")
  /\ (forall language filename r,
        fold_left index_row [Demo.row1; Demo2.keyless; Demo2.by_id] ∅
          !! "s000000009" = Some (language, filename, r) ->
        r ∈ [Demo.row1; Demo2.keyless; Demo2.by_id]
        /\ row_sid r = Some "s000000009"
        /\ language = row_language r
        /\ filename = row_filename "s000000009" r).
Proof.
  apply (build_submission_index_entries Demo.root Demo.join Demo2.world
           (KStr "p00001"));
    reflexivity.
Defined.

Lemma build_submission_index_not_empty_witness :
  truthy "s000000009" = true /\ truthy "s000000009.py" = true.
Proof.
  apply (build_submission_index_not_empty Demo.root Demo.join Demo2.world
           (KStr "p00001")
           (fold_left index_row [Demo.row1; Demo2.keyless; Demo2.by_id] ∅)
           "s000000009" "Python 3" "s000000009.py" Demo2.by_id);
    reflexivity.
Defined.

End MoreIndexRuns.

(** ** More on grouping *)

Section MoreGrouping.

Lemma setdefault_append_keys (by_problem : list (key * list json))
    (k0 k : key) (sj : json) :
  key_eqb k0 k = false ->
  Forall (fun g => key_eqb k0 (fst g) = false) by_problem ->
  Forall (fun g => key_eqb k0 (fst g) = false)
    (setdefault_append by_problem k sj).
Proof.
  intros Hk H. induction H as [|[k1 sids] rest H1 Hrest IH];
    cbn [setdefault_append].
  - now repeat constructor.
  - destruct (key_eqb k1 k); constructor; assumption.
Qed.

Lemma setdefault_append_distinct (by_problem : list (key * list json))
    (k : key) (sj : json) :
  distinct_keys by_problem ->
  distinct_keys (setdefault_append by_problem k sj).
Proof.
  induction by_problem as [|[k0 sids] rest IH]; cbn [setdefault_append].
  - intros _. cbn. split; [constructor|exact I].
  - intros [Hhead Hrest]. destruct (key_eqb k0 k) eqn:E.
    + now split.
    + split; [now apply setdefault_append_keys|now apply IH].
Qed.

Lemma group_of_other (pid : string) (rest : list (key * list json)) :
  Forall (fun g => key_eqb (KStr pid) (fst g) = false) rest ->
  group_of pid rest = [].
Proof.
  induction 1 as [|[k sids] rest Hk _ IH]; [reflexivity|].
  cbn [group_of]. rewrite IH, app_nil_r.
  destruct k as [| | |p]; try reflexivity.
  cbn in Hk |- *. rewrite String.eqb_sym. now rewrite Hk.
Qed.

Lemma setdefault_append_group (pid : string)
    (by_problem : list (key * list json)) (k : key) (sj : json) :
  distinct_keys by_problem ->
  group_of pid (setdefault_append by_problem k sj)
  = (group_of pid by_problem ++ (if is_key pid k then [sj] else []))%list.
Proof.
  induction by_problem as [|[k0 sids] rest IH]; cbn [setdefault_append].
  - intros _. cbn [group_of]. now rewrite app_nil_r.
  - intros [Hhead Hrest]. destruct (key_eqb k0 k) eqn:E; cbn [group_of].
    + rewrite <- (key_eqb_is_key _ _ pid E).
      destruct (is_key pid k0) eqn:Hk0; [|now rewrite !app_nil_l, app_nil_r].
      destruct k0 as [| | |p]; try discriminate.
      apply String.eqb_eq in Hk0; subst p.
      rewrite (group_of_other _ _ Hhead), !app_nil_r. reflexivity.
    + rewrite (IH Hrest), app_assoc. reflexivity.
Qed.

Lemma is_key_to_key (pid : string) (pj : json) (k : key) :
  to_key pj = Some k -> is_key pid k = is_pid pid pj.
Proof. destruct pj; cbn; intros H; inversion H; reflexivity. Qed.

Lemma group_by_problem_invariant (pid : string) (ids : list (json * json))
    (by_problem grouped : list (key * list json)) :
  distinct_keys by_problem ->
  group_by_problem ids by_problem = Ok grouped ->
  distinct_keys grouped
  /\ group_of pid grouped = (group_of pid by_problem ++ sids_of pid ids)%list.
Proof.
  revert by_problem. induction ids as [|[pj sj] rest IH]; intros bp Hd H.
  - inversion H; subst. cbn [sids_of]. now rewrite app_nil_r.
  - cbn [group_by_problem] in H.
    destruct (to_key pj) as [k|] eqn:Hk; [|discriminate].
    destruct (IH _ (setdefault_append_distinct _ k sj Hd) H) as [Hd' Hg].
    split; [exact Hd'|].
    rewrite Hg, (setdefault_append_group _ _ _ _ Hd), <- app_assoc.
    cbn [sids_of]. rewrite (is_key_to_key pid pj k Hk).
    now destruct (is_pid pid pj).
Qed.



(** X11: the submissions grouped under a problem are the submissions the
    id list names for that problem, in the order of the id list and with
    their repetitions. *)
Theorem group_by_problem_order
    (pid : string) (ids : list (json * json))
    (grouped : list (key * list json)) :
  group_by_problem ids [] = Ok grouped ->
  group_of pid grouped = sids_of pid ids.
Proof.
  intros H. exact (proj2 (group_by_problem_invariant pid ids [] grouped I H)).
Qed.

Lemma group_by_problem_order_witness :
  group_of "p00001"
    [(KStr "p00001", [JStr "s1"; JStr "s3"; JStr "s1"]);
     (KStr "p00002", [JStr "s2"])]
  = [JStr "s1"; JStr "s3"; JStr "s1"].
Proof.
  apply (group_by_problem_order "p00001"
           [(JStr "p00001", JStr "s1"); (JStr "p00002", JStr "s2");
            (JStr "p00001", JStr "s3"); (JStr "p00001", JStr "s1")]).
  reflexivity.
Defined.

End MoreGrouping.

(** ** More on the loops of [extract_split] *)

Section MoreRuns.

Variable CODENET_ROOT : string.
Variable joinpath : string -> string -> string.
Variable decode : encoding -> string -> string.
Variable W : corpus.

Local Infix "//" := joinpath (at level 40, left associativity).

Local Abbreviation build_submission_index :=
  (Script.build_submission_index CODENET_ROOT joinpath W).
Local Abbreviation read_code := (Script.read_code decode W).
Local Abbreviation process_sid :=
  (Script.process_sid CODENET_ROOT joinpath decode W).
Local Abbreviation process_sids :=
  (Script.process_sids CODENET_ROOT joinpath decode W).
Local Abbreviation process_group :=
  (Script.process_group CODENET_ROOT joinpath decode W).
Local Abbreviation process_groups :=
  (Script.process_groups CODENET_ROOT joinpath decode W).
Local Abbreviation extract_split :=
  (Script.extract_split CODENET_ROOT joinpath decode W).

(** *** The three ways a submission ends, and the two ways it stops the
    run *)

(** X12: a submission that the index of its problem does not know, be it
    a string or any other hashable value, adds one to the missing-metadata
    counter, writes no line, copies no file, and the loop goes on. *)
Theorem process_sids_missing_row
    (raw_root : string) (s : loop_state) (pid k : key) (sid : json)
    (idx : gmap string (string * string * gmap string string))
    (rest : list json) :
  to_key sid = Some k ->
  (forall x, key_str k = Some x -> idx !! x = None) ->
  exists s',
    process_sid raw_root pid idx s sid = Done s'
    /\ missing_meta s' = missing_meta s + 1
    /\ out s' = out s /\ raw s' = raw s
    /\ count_written s' = count_written s
    /\ missing_file s' = missing_file s
    /\ process_sids raw_root pid idx s (sid :: rest)
       = process_sids raw_root pid idx s' rest.
Proof.
  intros Hk Hnone. exists (add_missing_meta 1 s).
  assert (Hstep : process_sid raw_root pid idx s sid
                  = Done (add_missing_meta 1 s)).
  { unfold Script.process_sid. rewrite Hk.
    destruct (key_str k) as [x|] eqn:Hx; [|reflexivity].
    now rewrite (Hnone x eq_refl). }
  repeat split; try assumption.
  cbn [Script.process_sids]. now rewrite Hstep.
Qed.

(** X13: a submission that resolves and whose copy goes through (the
    destination is not a locked copy, and the copy does not fail) writes
    one line, made of the problem, the submission, the language, file
    name and status of its row, the label of that status and the text of
    its file; it copies the bytes of the file under the raw root, at
    problem/language/file name; it adds one to the written counter and
    leaves the other two alone. *)
Theorem process_sid_writes
    (raw_root : string) (s : loop_state)
    (pid sid language filename content : string)
    (meta : gmap string string) (read_error : encoding -> option nat)
    (idx : gmap string (string * string * gmap string string)) :
  idx !! sid = Some (language, filename, meta) ->
  source_file W
    (CODENET_ROOT // "Project_CodeNet" // "data" // pid // language
       // filename) = Present content read_error ->
  read_error Utf8 = None ->
  raw_root // pid // language // filename ∉ locked s ->
  copy_error W
    (CODENET_ROOT // "Project_CodeNet" // "data" // pid // language
       // filename)
    (raw_root // pid // language // filename) = None ->
  exists s',
    process_sid raw_root (KStr pid) idx s (JStr sid) = Done s'
    /\ out s'
       = (out s ++ [record_line pid sid language filename meta
                      (decode Utf8 content)])%list
    /\ raw s' = <[raw_root // pid // language // filename := content]> (raw s)
    /\ count_written s' = count_written s + 1
    /\ missing_meta s' = missing_meta s
    /\ missing_file s' = missing_file s.
Proof.
  intros Hidx Hfile Hread Hfree Hcopy. eexists. split.
  - exact (process_sid_written CODENET_ROOT joinpath decode W raw_root s
             pid sid language filename content meta read_error idx
             Hidx Hfile Hread Hfree Hcopy).
  - now repeat split.
Qed.

(** X14: a file that is there and that neither read gets through stops
    the loop with the error of the second read: nothing is written for
    the submission and the submissions after it are not looked at. *)
Theorem process_sids_unreadable
    (raw_root : string) (s : loop_state)
    (pid sid language filename content : string)
    (meta : gmap string string) (read_error : encoding -> option nat)
    (idx : gmap string (string * string * gmap string string))
    (e1 e2 : nat) (rest : list json) :
  idx !! sid = Some (language, filename, meta) ->
  source_file W
    (CODENET_ROOT // "Project_CodeNet" // "data" // pid // language
       // filename) = Present content read_error ->
  read_error Utf8 = Some e1 -> read_error Latin1 = Some e2 ->
  process_sids raw_root (KStr pid) idx s (JStr sid :: rest)
  = Raised (OSError e2) s.
Proof.
  intros Hidx Hfile H1 H2. cbn [Script.process_sids].
  unfold Script.process_sid.
  cbn [to_key key_str resolve_source_path]. rewrite Hidx.
  unfold exists_file, Script.read_code, read_text.
  now rewrite Hfile, H1, H2.
Qed.

(** X15: the line is written before the copy is made: when the copy
    fails, the loop stops with its error and the line of the submission is
    in the stream and counted.  A destination that is a locked copy stays
    as it is; any other failure leaves every file of the raw tree but the
    destination as it was. *)
Theorem process_sids_copy_fails
    (raw_root : string) (s : loop_state)
    (pid sid language filename content : string)
    (meta : gmap string string) (read_error : encoding -> option nat)
    (idx : gmap string (string * string * gmap string string))
    (rest : list json) :
  idx !! sid = Some (language, filename, meta) ->
  source_file W
    (CODENET_ROOT // "Project_CodeNet" // "data" // pid // language
       // filename) = Present content read_error ->
  read_error Utf8 = None ->
  (raw_root // pid // language // filename ∈ locked s ->
   process_sids raw_root (KStr pid) idx s (JStr sid :: rest)
   = Raised (OSError 13)
       (write_line
          (record_line pid sid language filename meta (decode Utf8 content))
          s))
  /\ (forall failure,
        raw_root // pid // language // filename ∉ locked s ->
        copy_error W
          (CODENET_ROOT // "Project_CodeNet" // "data" // pid // language
             // filename)
          (raw_root // pid // language // filename) = Some failure ->
        exists s',
          process_sids raw_root (KStr pid) idx s (JStr sid :: rest)
          = Raised (OSError (copy_errno failure)) s'
          /\ out s'
             = (out s ++ [record_line pid sid language filename meta
                            (decode Utf8 content)])%list
          /\ count_written s' = count_written s + 1
          /\ forall p,
               p <> raw_root // pid // language // filename ->
               raw s' !! p = raw s !! p).
Proof.
  intros Hidx Hfile Hread.
  assert (Hstep : process_sids raw_root (KStr pid) idx s (JStr sid :: rest)
            = match copy2 W
                      (CODENET_ROOT // "Project_CodeNet" // "data" // pid
                         // language // filename)
                      (raw_root // pid // language // filename)
                      (write_line
                         (record_line pid sid language filename meta
                            (decode Utf8 content)) s) with
              | Done s' => process_sids raw_root (KStr pid) idx s' rest
              | Raised e s' => Raised e s'
              end).
  { cbn [Script.process_sids]. unfold Script.process_sid.
    cbn [to_key key_str resolve_source_path]. rewrite Hidx.
    unfold exists_file, Script.read_code, read_text.
    rewrite Hfile, Hread. reflexivity. }
  rewrite Hstep. unfold copy2. cbn [locked write_line]. split.
  - intros Hlocked. now rewrite (bool_decide_eq_true_2 _ Hlocked).
  - intros [errno left] Hfree Hcopy.
    rewrite (bool_decide_eq_false_2 _ Hfree), Hcopy. eexists.
    split; [reflexivity|]. cbn [copy_errno copy_left].
    destruct left as [bytes|]; cbn; repeat split; try reflexivity.
    intros p Hp. now apply lookup_insert_ne.
Qed.

(** *** Every submission is accounted for *)

Lemma process_sid_accounted (raw_root : string) (pid : key)
    (idx : gmap string (string * string * gmap string string))
    (s s' : loop_state) (sid : json) :
  process_sid raw_root pid idx s sid = Done s' ->
  accounted s' = accounted s + 1.
Proof.
  unfold Script.process_sid, accounted.
  destruct (to_key sid) as [k|]; [|discriminate].
  destruct (match key_str k with Some x => idx !! x | None => None end)
    as [[[language filename] meta]|];
    [|intros [= <-]; cbn; lia].
  destruct (resolve_source_path _ _ pid sid language filename) as [src|e];
    [|discriminate].
  destruct (exists_file W src); cbn [negb]; [|intros [= <-]; cbn; lia].
  destruct (Script.read_code decode W src) as [code|e]; [|discriminate].
  cbn [COPY_RAW]. unfold copy2.
  destruct (bool_decide _); [discriminate|].
  destruct (copy_error W src _); [discriminate|].
  destruct (source_file W src); [discriminate|].
  intros [= <-]. cbn. lia.
Qed.

Lemma process_sids_accounted (raw_root : string) (pid : key)
    (idx : gmap string (string * string * gmap string string))
    (sids : list json) (s s' : loop_state) :
  process_sids raw_root pid idx s sids = Done s' ->
  accounted s' = accounted s + length sids.
Proof.
  revert s. induction sids as [|sid rest IH]; intros s H.
  - inversion H; subst. cbn. lia.
  - cbn [Script.process_sids] in H.
    destruct (process_sid raw_root pid idx s sid) as [s1|e s1] eqn:E;
      [|discriminate].
    rewrite (IH _ H), (process_sid_accounted _ _ _ _ _ _ E). cbn. lia.
Qed.

Lemma process_group_accounted (raw_root : string) (s s' : loop_state)
    (pid : key) (sids : list json) :
  process_group raw_root s (pid, sids) = Done s' ->
  accounted s' = accounted s + length sids.
Proof.
  unfold Script.process_group.
  destruct (build_submission_index pid) as [idx|e];
    [apply process_sids_accounted|].
  destruct e; try discriminate.
  intros [= <-]. unfold accounted. cbn. lia.
Qed.

Lemma process_groups_accounted (raw_root : string)
    (by_problem : list (key * list json)) (s s' : loop_state) :
  process_groups raw_root s by_problem = Done s' ->
  accounted s' = accounted s + group_size by_problem.
Proof.
  revert s. induction by_problem as [|[pid sids] rest IH]; intros s H.
  - inversion H; subst. cbn. lia.
  - cbn [Script.process_groups] in H.
    destruct (process_group raw_root s (pid, sids)) as [s1|e s1] eqn:E;
      [|discriminate].
    rewrite (IH _ H), (process_group_accounted _ _ _ _ _ E). cbn. lia.
Qed.

(** X16: in a split that is extracted to the end, every entry of the id
    list is counted once: the three counters add up to the length of the
    id list, and the output file has as many lines as records were
    counted as written. *)
Theorem extract_split_accounts
    (split_name id_file : string) (fs : outputs)
    (ids : list (json * json)) (c : counters) :
  load_id_list W id_file = Ok ids ->
  snd (extract_split split_name id_file fs) = Ok c ->
  written c + no_meta c + no_file c = length ids
  /\ exists lines,
       jsonl (fst (extract_split split_name id_file fs))
         !! (OUT_DIR // (split_name +:+ ".jsonl")) = Some lines
       /\ length lines = written c.
Proof.
  intros Hload. unfold Script.extract_split. rewrite Hload.
  destruct (id_file_data W id_file) as [data|] eqn:Hfile;
    [|unfold load_id_list in Hload; now rewrite Hfile in Hload].
  destruct (group_by_problem ids []) as [by_problem|e] eqn:Hgroup;
    [|discriminate].
  set (start := {| count_written := 0; missing_meta := 0; missing_file := 0;
                   out := []; raw := raw_files fs;
                   locked := raw_locked fs |}).
  pose proof (process_groups_extends CODENET_ROOT joinpath decode W
                (OUT_DIR // "raw" // split_name) start by_problem)
    as (new & Hout & Hcount & _).
  destruct (process_groups (OUT_DIR // "raw" // split_name) start by_problem)
    as [s'|e s'] eqn:Hloop; [|discriminate].
  cbn [snd fst state_of jsonl]. intros Hc. inversion Hc; subst c; clear Hc.
  cbn [written no_meta no_file].
  apply process_groups_accounted in Hloop.
  rewrite (group_by_problem_size _ _ _ Hgroup) in Hloop.
  unfold accounted in Hloop. cbn in Hloop. split; [exact Hloop|].
  exists (out s'). split; [apply lookup_insert_eq|].
  cbn [state_of] in Hout, Hcount. cbn in Hout, Hcount.
  now rewrite Hcount, Hout.
Qed.

(** *** What stops a split before the output file is opened *)

Lemma process_sid_exn (raw_root : string) (pid : key)
    (idx : gmap string (string * string * gmap string string))
    (s s' : loop_state) (sid : json) (e : exn) :
  process_sid raw_root pid idx s sid = Raised e s' -> loop_exn e.
Proof.
  unfold Script.process_sid.
  destruct (to_key sid) as [k|]; [|now intros [= <- _]].
  destruct (match key_str k with Some x => idx !! x | None => None end)
    as [[[language filename] meta]|]; [|discriminate].
  unfold resolve_source_path.
  destruct (key_str pid) as [p|]; [|now intros [= <- _]].
  unfold exists_file, Script.read_code, read_text, copy2.
  destruct (source_file W _) as [|content read_error]; cbn [negb];
    [discriminate|].
  destruct (read_error Utf8); [destruct (read_error Latin1)|];
    cbn [COPY_RAW]; try (now intros [= <- _]);
    (destruct (bool_decide _); [now intros [= <- _]|]);
    (destruct (copy_error W _ _); [now intros [= <- _]|discriminate]).
Qed.

Lemma process_sids_exn (raw_root : string) (pid : key)
    (idx : gmap string (string * string * gmap string string))
    (sids : list json) (s s' : loop_state) (e : exn) :
  process_sids raw_root pid idx s sids = Raised e s' -> loop_exn e.
Proof.
  revert s. induction sids as [|sid rest IH]; intros s H; [discriminate|].
  cbn [Script.process_sids] in H.
  destruct (process_sid raw_root pid idx s sid) as [s1|e1 s1] eqn:E.
  - exact (IH _ H).
  - inversion H; subst. exact (process_sid_exn _ _ _ _ _ _ _ E).
Qed.

Lemma process_groups_exn (raw_root : string)
    (by_problem : list (key * list json)) (s s' : loop_state) (e : exn) :
  process_groups raw_root s by_problem = Raised e s' -> loop_exn e.
Proof.
  revert s. induction by_problem as [|[pid sids] rest IH]; intros s H;
    [discriminate|].
  cbn [Script.process_groups] in H.
  destruct (process_group raw_root s (pid, sids)) as [s1|e1 s1] eqn:E.
  - exact (IH _ H).
  - inversion H; subst. revert E. unfold Script.process_group.
    unfold Script.build_submission_index.
    destruct (metadata_rows W _) as [[rows|[| |errno]]|];
      [apply process_sids_exn|now intros [= <- _]..|discriminate].
Qed.

(** X17: a split that ends with the [ValueError] of a malformed entry
    of its id file, or with the [FileNotFoundError] of its id file, has
    written nothing: every output file is as it was, the [.jsonl] file of
    the split included.  (The [ValueError] of a table that is not UTF-8
    comes later, when the file is open.) *)
Theorem extract_split_stops_early
    (split_name id_file : string) (fs : outputs) (e : exn) :
  snd (extract_split split_name id_file fs) = Raise e ->
  loader_exn id_file e ->
  fst (extract_split split_name id_file fs) = fs.
Proof.
  unfold Script.extract_split.
  destruct (id_file_data W id_file) as [data|]; [|reflexivity].
  destruct (load_id_list W id_file) as [ids|e0]; [|reflexivity].
  destruct (group_by_problem ids []) as [by_problem|e0]; [|reflexivity].
  set (start := {| count_written := 0; missing_meta := 0; missing_file := 0;
                   out := []; raw := raw_files fs;
                   locked := raw_locked fs |}).
  destruct (process_groups (OUT_DIR // "raw" // split_name) start by_problem)
    as [s'|e0 s'] eqn:Hloop; [discriminate|].
  cbn [snd]. intros [= <-] He. apply process_groups_exn in Hloop.
  destruct e0 as [[]|[]| | |]; cbn in He, Hloop; contradiction.
Qed.

Lemma group_by_problem_unhashable (ids : list (json * json))
    (by_problem : list (key * list json)) (pj sj : json) :
  (pj, sj) ∈ ids -> to_key pj = None ->
  group_by_problem ids by_problem = Raise TypeError.
Proof.
  intros Hin Hk. revert by_problem.
  induction ids as [|[p0 s0] ids IH]; intros bp; [now inversion Hin|].
  cbn [group_by_problem].
  apply elem_of_cons in Hin as [[= <- <-]|Hin]; [now rewrite Hk|].
  destruct (to_key p0); [now apply IH|reflexivity].
Qed.

(** X18: an id list that loads and has a pair whose problem is a list or
    a dict stops the split with [TypeError] before the output file is
    opened: every output file is as it was. *)
Theorem extract_split_unhashable
    (split_name id_file : string) (fs : outputs)
    (ids : list (json * json)) (pj sj : json) :
  load_id_list W id_file = Ok ids ->
  (pj, sj) ∈ ids -> to_key pj = None ->
  extract_split split_name id_file fs = (fs, Raise TypeError).
Proof.
  intros Hload Hin Hk. unfold Script.extract_split. rewrite Hload.
  destruct (id_file_data W id_file) as [data|] eqn:Hfile;
    [|unfold load_id_list in Hload; now rewrite Hfile in Hload].
  now rewrite (group_by_problem_unhashable _ _ _ _ Hin Hk).
Qed.

(** X19: an id file that holds the empty list gives an empty output
    file, whatever the file held before, counters at zero, and leaves the
    raw tree alone. *)
Theorem extract_split_empty
    (split_name id_file : string) (fs : outputs) :
  id_file_data W id_file = Some [] ->
  extract_split split_name id_file fs
  = ({| jsonl := <[OUT_DIR // (split_name +:+ ".jsonl") := []]> (jsonl fs);
        raw_files := raw_files fs; raw_locked := raw_locked fs |},
     Ok {| written := 0; no_meta := 0; no_file := 0 |}).
Proof.
  intros Hfile. unfold Script.extract_split, load_id_list.
  now rewrite Hfile.
Qed.

(** *** A table that cannot be decoded *)

Lemma process_groups_app (raw_root : string)
    (pre post : list (key * list json)) (s s1 : loop_state) :
  process_groups raw_root s pre = Done s1 ->
  process_groups raw_root s (pre ++ post) = process_groups raw_root s1 post.
Proof.
  revert s. induction pre as [|group pre IH]; intros s H.
  - now inversion H; subst.
  - cbn [Script.process_groups app] in H |- *.
    destruct (process_group raw_root s group) as [s2|e s2]; [|discriminate].
    now apply IH.
Qed.

(** X26: a table that is there and is not valid UTF-8 stops the split
    with the [ValueError] of the decoder when its problem is reached.  By
    then the output file has been opened: it holds the lines written for
    the problems before, not what it held before the call, and the
    problems after are not looked at. *)
Theorem extract_split_undecodable_table
    (split_name id_file : string) (fs : outputs)
    (ids : list (json * json)) (pre rest : list (key * list json))
    (pid : key) (sids : list json) (s1 : loop_state) :
  load_id_list W id_file = Ok ids ->
  group_by_problem ids [] = Ok (pre ++ (pid, sids) :: rest)%list ->
  process_groups (OUT_DIR // "raw" // split_name)
    {| count_written := 0; missing_meta := 0; missing_file := 0;
       out := []; raw := raw_files fs; locked := raw_locked fs |} pre
  = Done s1 ->
  metadata_rows W
    (CODENET_ROOT // "Project_CodeNet" // "metadata"
       // (format_key pid +:+ ".csv")) = Some (Broken NotUtf8) ->
  extract_split split_name id_file fs
  = ({| jsonl := <[OUT_DIR // (split_name +:+ ".jsonl") := out s1]> (jsonl fs);
        raw_files := raw s1; raw_locked := locked s1 |},
     Raise (ValueError
              (UndecodableTable
                 (CODENET_ROOT // "Project_CodeNet" // "metadata"
                    // (format_key pid +:+ ".csv"))))).
Proof.
  intros Hload Hgroup Hpre Htable. unfold Script.extract_split.
  rewrite Hload.
  destruct (id_file_data W id_file) as [data|] eqn:Hfile;
    [|unfold load_id_list in Hload; now rewrite Hfile in Hload].
  rewrite Hgroup, (process_groups_app _ _ _ _ _ Hpre).
  cbn [Script.process_groups]. unfold Script.process_group.
  unfold Script.build_submission_index. rewrite Htable. reflexivity.
Qed.

(** *** Raw copies are copies *)

Lemma process_sid_from_corpus (m0 : gmap string string)
    (raw_root : string) (pid : key)
    (idx : gmap string (string * string * gmap string string))
    (s s' : loop_state) (sid : json) :
  process_sid raw_root pid idx s sid = Done s' ->
  from_corpus W m0 (raw s) -> from_corpus W m0 (raw s').
Proof.
  unfold Script.process_sid.
  destruct (to_key sid) as [k|]; [|discriminate].
  destruct (match key_str k with Some x => idx !! x | None => None end)
    as [[[language filename] meta]|]; [|now intros [= <-]].
  destruct (resolve_source_path _ _ pid sid language filename) as [src|e];
    [|discriminate].
  destruct (exists_file W src); cbn [negb]; [|now intros [= <-]].
  destruct (Script.read_code decode W src) as [code|e]; [|discriminate].
  cbn [COPY_RAW]. unfold copy2.
  destruct (bool_decide _); [discriminate|].
  destruct (copy_error W src _); [discriminate|].
  destruct (source_file W src) as [|content read_error] eqn:Hsrc;
    [discriminate|].
  intros [= <-] H. cbn [copy_raw raw write_line]. intros p c Hp.
  apply lookup_insert_Some in Hp as [[_ <-]|[_ Hp]].
  - right. now exists src, read_error.
  - now apply H.
Qed.

Lemma process_sids_from_corpus (m0 : gmap string string)
    (raw_root : string) (pid : key)
    (idx : gmap string (string * string * gmap string string))
    (sids : list json) (s s' : loop_state) :
  process_sids raw_root pid idx s sids = Done s' ->
  from_corpus W m0 (raw s) -> from_corpus W m0 (raw s').
Proof.
  revert s. induction sids as [|sid rest IH]; intros s Hrun H.
  - now inversion Hrun; subst.
  - cbn [Script.process_sids] in Hrun.
    destruct (process_sid raw_root pid idx s sid) as [s1|e s1] eqn:E;
      [|discriminate].
    exact (IH _ Hrun (process_sid_from_corpus _ _ _ _ _ _ _ E H)).
Qed.

Lemma process_groups_from_corpus (m0 : gmap string string)
    (raw_root : string) (by_problem : list (key * list json))
    (s s' : loop_state) :
  process_groups raw_root s by_problem = Done s' ->
  from_corpus W m0 (raw s) -> from_corpus W m0 (raw s').
Proof.
  revert s. induction by_problem as [|[pid sids] rest IH]; intros s Hrun H.
  - now inversion Hrun; subst.
  - cbn [Script.process_groups] in Hrun.
    destruct (process_group raw_root s (pid, sids)) as [s1|e s1] eqn:E;
      [|discriminate].
    apply (IH _ Hrun). revert E. unfold Script.process_group.
    destruct (build_submission_index pid) as [idx|e].
    + intros E. exact (process_sids_from_corpus _ _ _ _ _ _ _ E H).
    + destruct e; try discriminate. now intros [= <-].
Qed.

(** X21: whatever a split that is extracted to the end leaves in the raw
    tree was there before or is, byte for byte, the content of a source
    file of the corpus. *)
Theorem extract_split_raw_copies
    (split_name id_file : string) (fs fs' : outputs) (c : counters)
    (p content : string) :
  extract_split split_name id_file fs = (fs', Ok c) ->
  raw_files fs' !! p = Some content ->
  raw_files fs !! p = Some content
  \/ exists src read_error, source_file W src = Present content read_error.
Proof.
  unfold Script.extract_split.
  destruct (id_file_data W id_file); [|discriminate].
  destruct (load_id_list W id_file); [|discriminate].
  destruct (group_by_problem _ []) as [by_problem|]; [|discriminate].
  set (start := {| count_written := 0; missing_meta := 0; missing_file := 0;
                   out := []; raw := raw_files fs;
                   locked := raw_locked fs |}).
  assert (H0 : from_corpus W (raw_files fs) (raw start))
    by (intros q d Hq; now left).
  destruct (process_groups _ start by_problem) as [s'|e s'] eqn:Hloop;
    [|discriminate].
  intros [= <- _]. cbn [raw_files state_of].
  apply (process_groups_from_corpus _ _ _ _ _ Hloop H0).
Qed.

(** *** One record, one line *)

Lemma no_lf_app (a b : string) : no_lf (a +:+ b) = no_lf a && no_lf b.
Proof.
  unfold no_lf. induction a as [|c a IH]; [reflexivity|].
  rewrite app_cons. cbn [all_chars]. now rewrite IH, andb_assoc.
Qed.

Lemma no_lf_escape_char (c : ascii) : no_lf (escape_char c) = true.
Proof. destruct c as [[] [] [] [] [] [] [] []]; reflexivity. Qed.

Lemma no_lf_escape (s : string) : no_lf (escape s) = true.
Proof.
  induction s as [|c r IH]; [reflexivity|].
  cbn [escape]. now rewrite no_lf_app, no_lf_escape_char, IH.
Qed.

Lemma no_lf_dumps_str (s : string) : no_lf (dumps_str s) = true.
Proof.
  unfold dumps_str. now rewrite !no_lf_app, no_lf_escape.
Qed.

Lemma no_lf_dumps_members (members : list (string * string)) :
  no_lf (dumps_members members) = true.
Proof.
  induction members as [|[k v] rest IH]; [reflexivity|].
  cbn [dumps_members]. destruct rest as [|kv rest].
  - now rewrite !no_lf_app, !no_lf_dumps_str.
  - now rewrite !no_lf_app, !no_lf_dumps_str, IH.
Qed.

Lemma one_record_line_dumps (members : list (string * string)) :
  one_record_line (json_dumps members +:+ newline).
Proof.
  exists (json_dumps members). split; [reflexivity|].
  unfold json_dumps. now rewrite !no_lf_app, no_lf_dumps_members.
Qed.

Lemma process_sid_lines (raw_root : string) (pid : key)
    (idx : gmap string (string * string * gmap string string))
    (s : loop_state) (sid : json) :
  Forall one_record_line (out s) ->
  Forall one_record_line (out (state_of (process_sid raw_root pid idx s sid))).
Proof.
  intros H. unfold Script.process_sid.
  destruct (to_key sid) as [k|]; [|exact H].
  destruct (match key_str k with Some x => idx !! x | None => None end)
    as [[[language filename] meta]|]; [|exact H].
  destruct (resolve_source_path _ _ pid sid language filename) as [src|e];
    [|exact H].
  destruct (exists_file W src); cbn [negb]; [|exact H].
  destruct (Script.read_code decode W src) as [code|e]; [|exact H].
  cbn [COPY_RAW]. unfold copy2.
  assert (Hline : forall line, one_record_line line ->
            Forall one_record_line (out (write_line line s))).
  { intros line Hl. cbn. apply Forall_app. split; [exact H|].
    now repeat constructor. }
  destruct (bool_decide _); [apply Hline, one_record_line_dumps|].
  destruct (copy_error W src _) as [[errno [bytes|]]|];
    [apply Hline, one_record_line_dumps..|].
  destruct (source_file W src); apply Hline, one_record_line_dumps.
Qed.

Lemma process_sids_lines (raw_root : string) (pid : key)
    (idx : gmap string (string * string * gmap string string))
    (sids : list json) (s : loop_state) :
  Forall one_record_line (out s) ->
  Forall one_record_line (out (state_of (process_sids raw_root pid idx s sids))).
Proof.
  revert s. induction sids as [|sid rest IH]; intros s H; [exact H|].
  cbn [Script.process_sids].
  pose proof (process_sid_lines raw_root pid idx s sid H) as H1.
  destruct (process_sid raw_root pid idx s sid) as [s1|e s1];
    [now apply IH|exact H1].
Qed.

Lemma process_groups_lines (raw_root : string)
    (by_problem : list (key * list json)) (s : loop_state) :
  Forall one_record_line (out s) ->
  Forall one_record_line (out (state_of (process_groups raw_root s by_problem))).
Proof.
  revert s. induction by_problem as [|[pid sids] rest IH]; intros s H;
    [exact H|].
  cbn [Script.process_groups].
  assert (H1 : Forall one_record_line
                 (out (state_of (process_group raw_root s (pid, sids))))).
  { unfold Script.process_group.
    destruct (build_submission_index pid) as [idx|e];
      [now apply process_sids_lines|].
    destruct e; exact H. }
  destruct (process_group raw_root s (pid, sids)) as [s1|e s1];
    [now apply IH|exact H1].
Qed.

(** X22: the output file of a split, once the split has written it, is
    one record per line: each of its lines is text without a line feed
    followed by one line feed, whatever the source files and the table
    hold.  (A split that stops before opening the file leaves the file as
    it was.) *)
Theorem extract_split_one_record_per_line
    (split_name id_file : string) (fs : outputs) (lines : list string) :
  jsonl (fst (extract_split split_name id_file fs))
    !! (OUT_DIR // (split_name +:+ ".jsonl")) = Some lines ->
  fst (extract_split split_name id_file fs) = fs
  \/ Forall one_record_line lines.
Proof.
  unfold Script.extract_split.
  destruct (id_file_data W id_file); [|now left].
  destruct (load_id_list W id_file); [|now left].
  destruct (group_by_problem _ []) as [by_problem|]; [|now left].
  set (start := {| count_written := 0; missing_meta := 0; missing_file := 0;
                   out := []; raw := raw_files fs;
                   locked := raw_locked fs |}).
  pose proof (process_groups_lines (OUT_DIR // "raw" // split_name)
                by_problem start (List.Forall_nil _)) as H.
  intros Hl. right.
  destruct (process_groups _ start by_problem); cbn [fst jsonl state_of] in Hl;
    cbn [state_of] in H; rewrite lookup_insert_eq in Hl;
    inversion Hl; subst lines; exact H.
Qed.

End MoreRuns.

(** ** [main] and the entry point *)

Section MoreMain.

Variable CODENET_ROOT : string.
Variable joinpath : string -> string -> string.
Variable decode : encoding -> string -> string.
Variable W : corpus.

Local Infix "//" := joinpath (at level 40, left associativity).

Local Abbreviation extract_split :=
  (Script.extract_split CODENET_ROOT joinpath decode W).
Local Abbreviation main := (Script.main CODENET_ROOT joinpath decode W).

Lemma extract_split_ok_file (split_name id_file : string) (fs : outputs)
    (c : counters) :
  snd (extract_split split_name id_file fs) = Ok c ->
  is_Some (jsonl (fst (extract_split split_name id_file fs))
             !! (OUT_DIR // (split_name +:+ ".jsonl"))).
Proof.
  unfold Script.extract_split.
  destruct (id_file_data W id_file); [|discriminate].
  destruct (load_id_list W id_file); [|discriminate].
  destruct (group_by_problem _ []); [|discriminate].
  destruct (process_groups _ _ _ _ _ _ _); [|discriminate].
  intros _. cbn [fst jsonl]. rewrite lookup_insert_eq. eauto.
Qed.

Lemma extract_split_keeps_jsonl (split_name id_file : string) (fs : outputs)
    (p : string) :
  is_Some (jsonl fs !! p) ->
  is_Some (jsonl (fst (extract_split split_name id_file fs)) !! p).
Proof.
  intros Hsome. unfold Script.extract_split.
  destruct (id_file_data W id_file); [|exact Hsome].
  destruct (load_id_list W id_file); [|exact Hsome].
  destruct (group_by_problem _ []); [|exact Hsome].
  destruct (process_groups _ _ _ _ _ _ _); cbn [fst jsonl];
    apply lookup_insert_is_Some';  now right.
Qed.

(** X23: when [main] ends without an exception, the output files of the
    three splits are all there. *)
Theorem main_success_files (fs fs' : outputs) :
  main fs = (fs', Ok tt) ->
  is_Some (jsonl fs' !! (OUT_DIR // "train.jsonl"))
  /\ is_Some (jsonl fs' !! (OUT_DIR // "valid.jsonl"))
  /\ is_Some (jsonl fs' !! (OUT_DIR // "test.jsonl")).
Proof.
  unfold Script.main.
  pose proof (extract_split_ok_file "train" (SPLIT_DIR // "train-ids.json") fs)
    as H1.
  destruct (extract_split "train" _ fs) as [fs1 [c1|e1]]; [|discriminate].
  pose proof (extract_split_ok_file "valid" (SPLIT_DIR // "valid-ids.json") fs1)
    as H2.
  pose proof (extract_split_keeps_jsonl "valid" (SPLIT_DIR // "valid-ids.json")
                fs1) as K2.
  destruct (extract_split "valid" _ fs1) as [fs2 [c2|e2]]; [|discriminate].
  pose proof (extract_split_ok_file "test" (SPLIT_DIR // "test-ids.json") fs2)
    as H3.
  pose proof (extract_split_keeps_jsonl "test" (SPLIT_DIR // "test-ids.json")
                fs2) as K3.
  destruct (extract_split "test" _ fs2) as [fs3 [c3|e3]]; [|discriminate].
  intros [= <-]. cbn [fst snd] in *.
  split; [|split].
  - apply K3, K2. exact (H1 _ eq_refl).
  - apply K3. exact (H2 _ eq_refl).
  - exact (H3 _ eq_refl).
Qed.

(** X24: [main] stops at the first split that raises, be it the first,
    the second or the third: it ends with the exception of that split, on
    the files that split left, and the splits after it are not started. *)
Theorem main_stops_at_first_failure (fs : outputs) (e : exn) :
  (snd (extract_split "train" (SPLIT_DIR // "train-ids.json") fs) = Raise e ->
   main fs
   = (fst (extract_split "train" (SPLIT_DIR // "train-ids.json") fs), Raise e))
  /\ (forall c,
        snd (extract_split "train" (SPLIT_DIR // "train-ids.json") fs) = Ok c ->
        snd (extract_split "valid" (SPLIT_DIR // "valid-ids.json")
               (fst (extract_split "train" (SPLIT_DIR // "train-ids.json") fs)))
        = Raise e ->
        main fs
        = (fst (extract_split "valid" (SPLIT_DIR // "valid-ids.json")
                  (fst (extract_split "train" (SPLIT_DIR // "train-ids.json")
                          fs))),
           Raise e))
  /\ (forall c c',
        snd (extract_split "train" (SPLIT_DIR // "train-ids.json") fs) = Ok c ->
        snd (extract_split "valid" (SPLIT_DIR // "valid-ids.json")
               (fst (extract_split "train" (SPLIT_DIR // "train-ids.json") fs)))
        = Ok c' ->
        snd (extract_split "test" (SPLIT_DIR // "test-ids.json")
               (fst (extract_split "valid" (SPLIT_DIR // "valid-ids.json")
                       (fst (extract_split "train"
                               (SPLIT_DIR // "train-ids.json") fs)))))
        = Raise e ->
        main fs
        = (fst (extract_split "test" (SPLIT_DIR // "test-ids.json")
                  (fst (extract_split "valid" (SPLIT_DIR // "valid-ids.json")
                          (fst (extract_split "train"
                                  (SPLIT_DIR // "train-ids.json") fs))))),
           Raise e)).
Proof.
  unfold Script.main.
  destruct (extract_split "train" _ fs) as [fs1 [c1|e1]]; cbn [fst snd].
  - split; [discriminate|].
    destruct (extract_split "valid" _ fs1) as [fs2 [c2|e2]]; cbn [fst snd].
    + split; [discriminate|]. intros c c' _ _.
      destruct (extract_split "test" _ fs2) as [fs3 [c3|e3]]; cbn [fst snd];
        [discriminate|now intros [= ->]].
    + split; [now intros c _ [= ->]|discriminate].
  - split; [now intros [= ->]|split; discriminate].
Qed.

(** X25: the script calls [main] only when the corpus root, its data and
    metadata directories and the directory of the id files are all
    there; when one of them is missing it ends with [SystemExit] and no
    output file is written. *)
Theorem run_script_gate (path_exists : string -> bool) (fs : outputs) :
  (path_exists CODENET_ROOT = false
   \/ path_exists (CODENET_ROOT // "Project_CodeNet" // "data") = false
   \/ path_exists (CODENET_ROOT // "Project_CodeNet" // "metadata") = false
   \/ path_exists SPLIT_DIR = false ->
   exists m,
     run_script CODENET_ROOT joinpath decode W path_exists fs
     = (fs, SystemExit m))
  /\ (path_exists CODENET_ROOT = true ->
      path_exists (CODENET_ROOT // "Project_CodeNet" // "data") = true ->
      path_exists (CODENET_ROOT // "Project_CodeNet" // "metadata") = true ->
      path_exists SPLIT_DIR = true ->
      run_script CODENET_ROOT joinpath decode W path_exists fs
      = (fst (main fs), Ran (snd (main fs)))).
Proof.
  unfold run_script. split.
  - intros H.
    destruct (path_exists CODENET_ROOT); cbn [negb]; [|eauto].
    destruct (path_exists (CODENET_ROOT // "Project_CodeNet" // "data"));
      cbn [negb orb]; [|eauto].
    destruct (path_exists (CODENET_ROOT // "Project_CodeNet" // "metadata"));
      cbn [negb]; [|eauto].
    destruct (path_exists SPLIT_DIR); cbn [negb]; [|eauto].
    destruct H as [H|[H|[H|H]]]; discriminate.
  - intros -> -> -> ->. cbn [negb orb]. now destruct (main fs).
Qed.

End MoreMain.

(** ** The further properties on the small corpora *)

Section MoreConcrete.

Local Abbreviation process_sid :=
  (Script.process_sid Demo.root Demo.join Demo.decode Demo.world).
Local Abbreviation process_sids :=
  (Script.process_sids Demo.root Demo.join Demo.decode Demo.world).

(** The number 5 is no key of the index. *)
Lemma process_sids_missing_row_witness :
  exists s',
    process_sid Demo.raw_root (KStr "p00001") Demo.index1 Demo.start (JNum 5)
    = Done s'
    /\ missing_meta s' = 1 /\ out s' = [].
Proof.
  destruct (process_sids_missing_row Demo.root Demo.join Demo.decode
              Demo.world Demo.raw_root Demo.start (KStr "p00001") (KInt 5)
              (JNum 5) Demo.index1 [] eq_refl)
    as (s' & Hstep & Hmeta & Hout & _).
  - intros x Hx. discriminate Hx.
  - exists s'. now repeat split.
Defined.

Lemma process_sid_writes_witness :
  exists s',
    process_sid Demo.raw_root (KStr "p00001") Demo.index1 Demo.start
      (JStr "s000000001") = Done s'
    /\ out s'
       = [record_line "p00001" "s000000001" "Python" "a.py" Demo.row1
            "print(1)"]
    /\ raw s'
       = {[ "data/codenet_extract/raw/train/p00001/Python/a.py" := "print(1)" ]}.
Proof.
  destruct (process_sid_writes Demo.root Demo.join Demo.decode Demo.world
              Demo.raw_root Demo.start "p00001" "s000000001" "Python" "a.py"
              "print(1)" Demo.row1 (fun _ => None) Demo.index1
              eq_refl eq_refl eq_refl (not_elem_of_empty _) eq_refl)
    as (s' & Hstep & Hout & Hraw & _).
  exists s'. split; [exact Hstep|]. split; [exact Hout|exact Hraw].
Defined.

(** locked.cpp is there and cannot be read. *)
Lemma process_sids_unreadable_witness :
  process_sids Demo.raw_root (KStr "p00001") Demo2.index2 Demo.start
    [JStr "s000000003"; JStr "s000000001"]
  = Raised (OSError 13) Demo.start.
Proof.
  apply (process_sids_unreadable Demo.root Demo.join Demo.decode Demo.world
           Demo.raw_root Demo.start "p00001" "s000000003" "C++" "locked.cpp"
           "int main(){}" Demo.row2 (fun _ => Some 13%nat) Demo2.index2
           13 13 [JStr "s000000001"]);
    reflexivity.
Defined.

(** In the second corpus the copy under raw/full fails and leaves three
    bytes at its destination. *)
Lemma process_sids_copy_fails_witness :
  exists s',
    Script.process_sids Demo.root Demo.join Demo.decode Demo2.world
      "data/codenet_extract/raw/full" (KStr "p00001") Demo.index1 Demo.start
      [JStr "s000000001"; JStr "s000000001"]
    = Raised (OSError 28) s'
    /\ out s'
       = [record_line "p00001" "s000000001" "Python" "a.py" Demo.row1
            "print(1)"]
    /\ count_written s' = 1
    /\ forall p,
         p <> "data/codenet_extract/raw/full/p00001/Python/a.py" ->
         raw s' !! p = None.
Proof.
  destruct (proj2 (process_sids_copy_fails Demo.root Demo.join Demo.decode
                     Demo2.world "data/codenet_extract/raw/full" Demo.start
                     "p00001" "s000000001" "Python" "a.py" "print(1)"
                     Demo.row1 (fun _ => None) Demo.index1
                     [JStr "s000000001"] eq_refl eq_refl eq_refl)
              {| copy_errno := 28; copy_left := Some "pri" |}
              (not_elem_of_empty _) eq_refl)
    as (s' & Hstep & Hout & Hcount & Hraw).
  exists s'. split; [exact Hstep|]. split; [exact Hout|].
  split; [exact Hcount|]. intros p Hp. now rewrite (Hraw p Hp).
Defined.

(** The train split of the first corpus: four entries, two written, one
    without table, one without file. *)
Lemma extract_split_accounts_witness :
  2 + 1 + 1 = 4
  /\ exists lines,
       jsonl (fst (Demo.run_split "train"
                     "data/2021-12-29-f=0.01/train-ids.json"
                     Demo.empty_outputs))
         !! "data/codenet_extract/train.jsonl" = Some lines
       /\ length lines = 2.
Proof.
  apply (extract_split_accounts Demo.root Demo.join Demo.decode Demo.world
           "train" "data/2021-12-29-f=0.01/train-ids.json" Demo.empty_outputs
           [(JStr "p00001", JStr "s000000001"); (JStr "p00009", JStr "s000000007");
            (JStr "p00001", JStr "s000000002"); (JStr "p00001", JStr "s000000001")]
           {| written := 2; no_meta := 1; no_file := 1 |});
    reflexivity.
Defined.

Lemma extract_split_stops_early_witness :
  fst (Demo.run_split "train" "broken-ids.json" Demo.empty_outputs)
  = Demo.empty_outputs.
Proof.
  apply (extract_split_stops_early Demo.root Demo.join Demo.decode Demo.world
           "train" "broken-ids.json" Demo.empty_outputs
           (ValueError (UnrecognizedIdFormat "p0001_s000000001")));
    [reflexivity|exact I].
Defined.

(** A record whose problem is a list. *)
Lemma extract_split_unhashable_witness :
  Script.extract_split Demo.root Demo.join Demo.decode Demo2.world
    "train" "list-ids.json" Demo.empty_outputs
  = (Demo.empty_outputs, Raise TypeError).
Proof.
  apply (extract_split_unhashable Demo.root Demo.join Demo.decode Demo2.world
           "train" "list-ids.json" Demo.empty_outputs
           [(JArr [JStr "p00001"], JStr "s000000001")]
           (JArr [JStr "p00001"]) (JStr "s000000001"));
    [reflexivity|apply list_elem_of_here|reflexivity].
Defined.

Lemma extract_split_empty_witness :
  Script.extract_split Demo.root Demo.join Demo.decode Demo2.world
    "train" "empty-ids.json"
    {| jsonl := {[ "data/codenet_extract/train.jsonl" := ["old line"] ]};
       raw_files := ∅; raw_locked := ∅ |}
  = ({| jsonl := <["data/codenet_extract/train.jsonl" := []]>
                   {[ "data/codenet_extract/train.jsonl" := ["old line"] ]};
        raw_files := ∅; raw_locked := ∅ |},
     Ok {| written := 0; no_meta := 0; no_file := 0 |}).
Proof.
  exact (extract_split_empty Demo.root Demo.join Demo.decode Demo2.world
           "train" "empty-ids.json"
           {| jsonl := {[ "data/codenet_extract/train.jsonl" := ["old line"] ]};
              raw_files := ∅; raw_locked := ∅ |} eq_refl).
Defined.

(** In the second corpus the table of p00002 is not UTF-8: the split
    stops there, with the line of p00001 in the file. *)
Lemma extract_split_undecodable_table_witness :
  Script.extract_split Demo.root Demo.join Demo.decode Demo2.world
    "train" "latin-ids.json"
    {| jsonl := {[ "data/codenet_extract/train.jsonl" := ["old line"] ]};
       raw_files := ∅; raw_locked := ∅ |}
  = ({| jsonl :=
          <["data/codenet_extract/train.jsonl" :=
              [record_line "p00001" "s000000001" "Python" "a.py" Demo.row1
                 "print(1)"]]>
            {[ "data/codenet_extract/train.jsonl" := ["old line"] ]};
        raw_files :=
          {[ "data/codenet_extract/raw/train/p00001/Python/a.py" :=
               "print(1)" ]};
        raw_locked := ∅ |},
     Raise (ValueError
              (UndecodableTable
                 "/codenet/Project_CodeNet/metadata/p00002.csv"))).
Proof.
  exact (extract_split_undecodable_table Demo.root Demo.join Demo.decode
           Demo2.world "train" "latin-ids.json"
           {| jsonl := {[ "data/codenet_extract/train.jsonl" := ["old line"] ]};
              raw_files := ∅; raw_locked := ∅ |}
           [(JStr "p00001", JStr "s000000001");
            (JStr "p00002", JStr "s000000005")]
           [(KStr "p00001", [JStr "s000000001"])] []
           (KStr "p00002") [JStr "s000000005"]
           {| count_written := 1; missing_meta := 0; missing_file := 0;
              out := [record_line "p00001" "s000000001" "Python" "a.py"
                        Demo.row1 "print(1)"];
              raw := {[ "data/codenet_extract/raw/train/p00001/Python/a.py" :=
                          "print(1)" ]};
              locked := ∅ |}
           eq_refl eq_refl eq_refl eq_refl).
Defined.

Lemma extract_split_raw_copies_witness :
  (∅ : gmap string string)
    !! "data/codenet_extract/raw/train/p00001/Python/a.py" = Some "print(1)"
  \/ exists src read_error,
       source_file Demo.world src = Present "print(1)" read_error.
Proof.
  apply (extract_split_raw_copies Demo.root Demo.join Demo.decode Demo.world
           "train" "data/2021-12-29-f=0.01/train-ids.json" Demo.empty_outputs
           (fst (Demo.run_split "train" "data/2021-12-29-f=0.01/train-ids.json"
                   Demo.empty_outputs))
           {| written := 2; no_meta := 1; no_file := 1 |}
           "data/codenet_extract/raw/train/p00001/Python/a.py" "print(1)");
    reflexivity.
Defined.

Lemma extract_split_one_record_per_line_witness :
  fst (Demo.run_split "train" "data/2021-12-29-f=0.01/train-ids.json"
         Demo.empty_outputs) = Demo.empty_outputs
  \/ Forall one_record_line
       [record_line "p00001" "s000000001" "Python" "a.py" Demo.row1 "print(1)";
        record_line "p00001" "s000000001" "Python" "a.py" Demo.row1 "print(1)"].
Proof.
  apply (extract_split_one_record_per_line Demo.root Demo.join Demo.decode
           Demo.world "train" "data/2021-12-29-f=0.01/train-ids.json"
           Demo.empty_outputs).
  reflexivity.
Defined.

Lemma main_success_files_witness :
  is_Some (jsonl (fst (Demo.run_main Demo.empty_outputs))
             !! "data/codenet_extract/train.jsonl")
  /\ is_Some (jsonl (fst (Demo.run_main Demo.empty_outputs))
                !! "data/codenet_extract/valid.jsonl")
  /\ is_Some (jsonl (fst (Demo.run_main Demo.empty_outputs))
                !! "data/codenet_extract/test.jsonl").
Proof.
  apply (main_success_files Demo.root Demo.join Demo.decode Demo.world
           Demo.empty_outputs).
  reflexivity.
Defined.

(** In the second corpus the valid split has an entry that is a number:
    the run ends there, with the file of the train split written. *)
Lemma main_stops_at_first_failure_witness :
  Script.main Demo.root Demo.join Demo.decode Demo2.world Demo.empty_outputs
  = (fst (Script.extract_split Demo.root Demo.join Demo.decode Demo2.world
            "valid" "data/2021-12-29-f=0.01/valid-ids.json"
            (fst (Script.extract_split Demo.root Demo.join Demo.decode
                    Demo2.world "train"
                    "data/2021-12-29-f=0.01/train-ids.json"
                    Demo.empty_outputs))),
     Raise (ValueError (UnsupportedIdEntry (JNum 7)))).
Proof.
  apply (proj1 (proj2 (main_stops_at_first_failure Demo.root Demo.join
                         Demo.decode Demo2.world Demo.empty_outputs
                         (ValueError (UnsupportedIdEntry (JNum 7)))))
           {| written := 1; no_meta := 0; no_file := 0 |});
    reflexivity.
Defined.

Lemma run_script_gate_witness :
  exists m,
    run_script Demo.root Demo.join Demo.decode Demo.world Demo2.no_split_dir
      Demo.empty_outputs
    = (Demo.empty_outputs, SystemExit m).
Proof.
  apply (proj1 (run_script_gate Demo.root Demo.join Demo.decode Demo.world
                  Demo2.no_split_dir Demo.empty_outputs)).
  right. right. right. reflexivity.
Defined.

End MoreConcrete.
